(** * NuMarkdown OCR (gui.py): the inference worker and its supervisor

    A shallow embedding of [src/gui.py]: the background worker
    [OCRWorker.run] (image preparation, prompt composition, generation,
    sanitization of the decoded text, signal emission) and the parts of
    [MainWindow] that supervise it ([start_ocr], [on_model_changed],
    [display_result], [log], [load_model]).

    Conventions.
    - A Python [str] is a list of Unicode code points ([N]), so that
      [len], slicing and [strip] count characters as Python does.  Source
      literals are written as UTF-8 text and decoded by [py].
    - Python floats are binary64: the kernel's primitive floats.
    - Calls into PIL, transformers, torch and Qt whose outcome the program
      does not determine are read from an environment record; a call that
      can raise returns [result].
    - Signals emitted by the worker and effects of the main window are
      recorded, in order, in explicit traces and state records. *)

From Stdlib Require Import ZArith NArith List String Ascii Lia Bool.
From Stdlib Require Import Floats DecimalString.
From stdpp Require Import base list gmap.
Import ListNotations.

(** ** Python strings *)

Module PyStr.

Definition char : Type := N.
Definition str : Type := list char.

(** UTF-8 decoding of a source literal: [acc] holds the bits of the code
    point read so far and [need] the number of continuation bytes still
    expected. *)
Fixpoint decode_from (s : string) (acc : N) (need : nat) : str :=
  match s with
  | EmptyString => []
  | String c s' =>
      let b := N_of_ascii c in
      match need with
      | O =>
          if (b <? 128)%N then b :: decode_from s' 0%N 0
          else if (b <? 224)%N then decode_from s' (N.land b 31) 1
          else if (b <? 240)%N then decode_from s' (N.land b 15) 2
          else decode_from s' (N.land b 7) 3
      | S O => (acc * 64 + N.land b 63)%N :: decode_from s' 0%N 0
      | S n => decode_from s' (acc * 64 + N.land b 63)%N n
      end
  end.

Definition py (s : string) : str := decode_from s 0%N 0.

(** [str.isspace] on one character: the code points CPython's
    [_PyUnicode_IsWhitespace] accepts. *)
Definition is_space (c : char) : bool :=
  ((9 <=? c) && (c <=? 13) || (28 <=? c) && (c <=? 32)
   || (c =? 133) || (c =? 160) || (c =? 5760)
   || (8192 <=? c) && (c <=? 8202)
   || (c =? 8232) || (c =? 8233) || (c =? 8239) || (c =? 8287)
   || (c =? 12288))%N.

(** [s.lstrip()], [s.rstrip()] and [s.strip()] without argument. *)
Fixpoint lstrip (s : str) : str :=
  match s with
  | [] => []
  | c :: s' => if is_space c then lstrip s' else s
  end.

Definition rstrip (s : str) : str := reverse (lstrip (reverse s)).

Definition strip (s : str) : str := rstrip (lstrip s).

(** [s.startswith(p)] and [s.endswith(p)]. *)
Fixpoint startswith (s p : str) {struct p} : bool :=
  match p, s with
  | [], _ => true
  | _ :: _, [] => false
  | c :: p', d :: s' => (c =? d)%N && startswith s' p'
  end.

Definition endswith (s p : str) : bool := startswith (reverse s) (reverse p).

(** The slices [s[n:]] and [s[:-n]] for a non-negative [n]. *)
Definition slice_from (s : str) (n : nat) : str := drop n s.
Definition slice_to_neg (s : str) (n : nat) : str := take (length s - n) s.

(** [str(z)] for an integer. *)
Definition str_of_Z (z : Z) : str :=
  py (DecimalString.NilZero.string_of_int (Z.to_int z)).

Definition newline : str := [10%N].

End PyStr.
Import PyStr.

(** ** ResultSanitizer: lines 121-131 of [OCRWorker.run] *)

Definition fence : str := py "```markdown".
Definition ticks : str := py "```".

Definition sentinel : str :=
  py "Модель не смогла извлечь текст из изображения. Попробуйте другое изображение или проверьте качество.".

(** Line 121: [decoded[0].strip() if isinstance(decoded, list) and
    len(decoded) > 0 else ""]; [batch_decode] returns a list of strings. *)
Definition first_decoded (decoded : list str) : str :=
  match decoded with
  | d :: _ => strip d
  | [] => []
  end.

(** Lines 124-127, on the already stripped [result]. *)
Definition strip_leading_fence (result : str) : str :=
  if startswith result fence
  then lstrip (slice_from result (length fence))
  else result.

Definition strip_trailing_fence (result : str) : str :=
  if endswith result ticks
  then rstrip (slice_to_neg result (length ticks))
  else result.

Definition strip_fences (result : str) : str :=
  strip_trailing_fence (strip_leading_fence result).

(** Lines 130-131. *)
Definition replace_short (result : str) : str :=
  if (length result <? 5)%nat then sentinel else result.

(** The sanitization of one decoded string, and of the decoded batch. *)
Definition sanitize (decoded_text : str) : str :=
  replace_short (strip_fences (strip decoded_text)).

Definition sanitize_decoded (decoded : list str) : str :=
  replace_short (strip_fences (first_decoded decoded)).

(** The reading of section 4.4 of the specification: after each removal
    the text is trimmed on both sides. *)
Definition spec_strip_fences (result : str) : str :=
  let result :=
    if startswith result fence
    then strip (slice_from result (length fence)) else result in
  if endswith result ticks
  then strip (slice_to_neg result (length ticks)) else result.

(** A string is free of framing fences when it neither starts with the
    opening marker nor ends with the closing one. *)
Definition fence_free (s : str) : bool :=
  negb (startswith s fence) && negb (endswith s ticks).

(** A string is stripped when [strip] leaves it unchanged; equivalently
    when neither its first nor its last character is whitespace. *)
Definition stripped (s : str) : Prop := strip s = s.

Definition no_lead (s : str) : Prop :=
  forall c, head s = Some c -> is_space c = false.

Definition no_trail (s : str) : Prop :=
  forall c, last s = Some c -> is_space c = false.

Definition scenario2_input : str :=
  py " ```markdown" ++ newline ++ py "Hello" ++ newline ++ py "``` ".

Definition doubly_fenced : str := py "```markdown```markdown hello".

(** The invariant of [SanitizedText] in the words of section 3 of the
    specification: the sentinel exactly when the text left after fence
    stripping is shorter than five characters, otherwise a non-empty,
    stripped, fence-free string of length at least five. *)
Definition spec_sanitized (d : str) : Prop :=
  let r := strip_fences (strip d) in
  let out := sanitize d in
  (length r < 5 /\ out = sentinel) \/
  (5 <= length r /\ out <> [] /\ stripped out
   /\ fence_free out = true /\ 5 <= length out).

(** ** Python floats and integers *)

Module PyNum.

(** [float(z)] for an integer below 2^63 in absolute value (image
    dimensions are C ints in Pillow, for which the conversion is exact). *)
Definition of_int (z : Z) : float :=
  if (z <? 0)%Z
  then PrimFloat.opp (PrimFloat.of_uint63 (Uint63.of_Z (- z)))
  else PrimFloat.of_uint63 (Uint63.of_Z z).

(** [m * 2^e] rounded to an integer toward zero, and to the nearest
    integer with ties to even, for [m] positive. *)
Definition trunc_scaled (m e : Z) : Z :=
  if (0 <=? e)%Z then (m * 2 ^ e)%Z else (m / 2 ^ (- e))%Z.

Definition round_scaled (m e : Z) : Z :=
  if (0 <=? e)%Z then (m * 2 ^ e)%Z
  else
    let d := (2 ^ (- e))%Z in
    let q := (m / d)%Z in
    let r := (m mod d)%Z in
    if (2 * r <? d)%Z then q
    else if (d <? 2 * r)%Z then (q + 1)%Z
    else if Z.even q then q else (q + 1)%Z.

Definition signed (s : bool) (v : Z) : Z := if s then (- v)%Z else v.

(** [int(x)]: truncation toward zero; [None] where Python raises (nan,
    infinities). *)
Definition int (x : float) : option Z :=
  match Prim2SF x with
  | S754_zero _ => Some 0%Z
  | S754_finite s m e => Some (signed s (trunc_scaled (Zpos m) e))
  | S754_infinity _ | S754_nan => None
  end.

(** [round(x)] without digits: nearest integer, ties to even. *)
Definition round (x : float) : option Z :=
  match Prim2SF x with
  | S754_zero _ => Some 0%Z
  | S754_finite s m e => Some (signed s (round_scaled (Zpos m) e))
  | S754_infinity _ | S754_nan => None
  end.

(** [f"{x:.1f}"]: the exact value rounded to one decimal, ties to even. *)
Definition format_1f (x : float) : str :=
  match Prim2SF x with
  | S754_zero s => (if s then py "-" else []) ++ py "0.0"
  | S754_finite s m e =>
      let n := round_scaled (Zpos m * 10) e in
      (if s then py "-" else []) ++ str_of_Z (n / 10) ++ py "." ++ str_of_Z (n mod 10)
  | S754_infinity s => (if s then py "-" else []) ++ py "inf"
  | S754_nan => py "nan"
  end.

(** [", ".join(str(z) for z in zs)]. *)
Fixpoint join_ints (zs : list Z) : str :=
  match zs with
  | [] => []
  | [z] => str_of_Z z
  | z :: zs' => str_of_Z z ++ py ", " ++ join_ints zs'
  end.

End PyNum.

(** ** Exceptions and results *)

(** The two classes the handlers of [OCRWorker.run] tell apart:
    [torch.cuda.OutOfMemoryError] and any other [Exception]; each carries
    [str(e)].  What is raised outside the [Exception] hierarchy
    ([KeyboardInterrupt], [SystemExit]) is not modelled. *)
Inductive exception : Type :=
  | OutOfMemoryError (msg : str)
  | Exception (msg : str).

Inductive result (A : Type) : Type :=
  | Ok (a : A)
  | Raise (e : exception).
Arguments Ok {A} a.
Arguments Raise {A} e.

#[global] Instance result_ret : MRet result := fun A a => Ok a.
#[global] Instance result_bind : MBind result :=
  fun A B f m => match m with Ok a => f a | Raise e => Raise e end.

(** ** Images (PIL) *)

Inductive Mode : Type := Mode1 | ModeL | ModeP | ModeRGB | ModeRGBA | ModeCMYK | ModeOther.

Inductive Resampling : Type := NEAREST | BOX | BILINEAR | HAMMING | BICUBIC | LANCZOS.

(** An image as far as the program looks at it: colour mode, size
    (width, height) and the filter of the resize that produced it. *)
Record Image : Type := mkImage {
  im_mode : Mode;
  im_size : Z * Z;
  im_filter : option Resampling
}.

(** The filters of [Image.Resampling] that average over the source pixels
    covered by a target pixel when reducing. *)
Definition antialiased (f : Resampling) : bool :=
  match f with
  | NEAREST => false
  | BOX | BILINEAR | HAMMING | BICUBIC | LANCZOS => true
  end.

(** [img.resize(size, resample)]: Pillow refuses a size with a dimension
    below one. *)
Definition resize (img : Image) (size : Z * Z) (resample : Resampling) : result Image :=
  if ((1 <=? fst size) && (1 <=? snd size))%Z
  then Ok {| im_mode := im_mode img; im_size := size; im_filter := Some resample |}
  else Raise (Exception (py "height and width must be > 0")).

Definition max_size : Z := 1536.

(** Lines 51-52: [ratio = max_size / max(img.size)] and
    [tuple(int(dim * ratio) for dim in img.size)]. *)
Definition ratio (size : Z * Z) : float :=
  (PyNum.of_int max_size / PyNum.of_int (Z.max (fst size) (snd size)))%float.

Definition scaled (dim : Z) (r : float) : float := (PyNum.of_int dim * r)%float.

Definition new_size (size : Z * Z) : result (Z * Z) :=
  let r := ratio size in
  match PyNum.int (scaled (fst size) r), PyNum.int (scaled (snd size) r) with
  | Some w, Some h => Ok (w, h)
  | _, _ => Raise (Exception (py "cannot convert float NaN to integer"))
  end.

(** The dimensions the specification asks for: [round(dim * ratio)]. *)
Definition spec_new_size (size : Z * Z) : option (Z * Z) :=
  let r := ratio size in
  match PyNum.round (scaled (fst size) r), PyNum.round (scaled (snd size) r) with
  | Some w, Some h => Some (w, h)
  | _, _ => None
  end.

(** [f"{new_size}"] for a pair of integers. *)
Definition repr_size (size : Z * Z) : str :=
  py "(" ++ str_of_Z (fst size) ++ py ", " ++ str_of_Z (snd size) ++ py ")".

(** Lines 49-54 without the log line: the image and, when it was
    resized, the new size. *)
Definition downscale (img : Image) : result (Image * option (Z * Z)) :=
  if (max_size <? Z.max (fst (im_size img)) (snd (im_size img)))%Z
  then
    size ← new_size (im_size img);
    img' ← resize img size LANCZOS;
    mret (img', Some size)
  else mret (img, None).

(** ** External collaborators *)

(** The loaded processor and model: what [from_pretrained] was given, and
    the attributes of the model that the program reads. *)
Record Processor : Type := mkProcessor {
  processor_source : str
}.

Record Model : Type := mkModel {
  model_source : str;
  model_device : str;
  quantization_method : option str
}.

Inductive content : Type :=
  | content_image (image : Image)
  | content_text (text : str).

Record message : Type := mkMessage {
  role : str;
  message_content : list content
}.

(** The tensors of [processor(...)]: the token ids, the shape of the pixel
    tensor and the device they live on. *)
Record BatchFeature : Type := mkBatchFeature {
  input_ids : list (list Z);
  pixel_values_shape : list Z;
  feature_device : str
}.

(** The keyword arguments of [model.generate] (lines 93-104). *)
Record GenerationConfig : Type := mkGenerationConfig {
  max_new_tokens : Z;
  min_new_tokens : Z;
  do_sample : bool;
  repetition_penalty : float;
  length_penalty : float;
  no_repeat_ngram_size : Z;
  pad_token_id : Z;
  eos_token_id : Z;
  use_cache : bool
}.

(** Everything the program asks of PIL, transformers, torch, the clock
    and the operating system. *)
Record Env : Type := mkEnv {
  Image_open : str -> result Image;
  load_error : Image -> option exception;
  apply_chat_template : Processor -> list message -> bool -> bool -> result str;
  process_vision_info : list message -> result (list Image * list Image);
  processor_call :
    Processor -> list str -> list Image -> list Image -> bool -> str -> result BatchFeature;
  to_device : BatchFeature -> str -> result BatchFeature;
  tokenizer_eos_token_id : Processor -> Z;
  generate : Model -> BatchFeature -> GenerationConfig -> result (list (list Z));
  batch_decode : Processor -> list (list Z) -> bool -> bool -> result (list str);
  time_time : nat -> float;
  format_exc : exception -> str;
  AutoProcessor_from_pretrained : str -> result Processor;
  Model_from_pretrained : str -> result Model;
  cuda_is_available : bool;
  now_strftime : nat -> str;
  basename : str -> str
}.

(** [Image.open(...)] is lazy; the pixel data is decoded by [convert],
    which is where a damaged file raises. *)
Definition convert (E : Env) (mode : Mode) (img : Image) : result Image :=
  match load_error E img with
  | Some e => Raise e
  | None => Ok {| im_mode := mode; im_size := im_size img; im_filter := im_filter img |}
  end.

(** Lines 46-54 without the log lines. *)
Definition prepare (E : Env) (image_path : str) : result (Image * option (Z * Z)) :=
  img ← Image_open E image_path ≫= convert E ModeRGB;
  downscale img.

(** [f"{t.shape}"] for a tensor. *)
Definition repr_shape (shape : list Z) : str :=
  py "torch.Size([" ++ PyNum.join_ints shape ++ py "])".

Definition shape_of_ids (ids : list (list Z)) : list Z :=
  [Z.of_nat (length ids); Z.of_nat (length (default [] (head ids)))].

(** ** OCRWorker *)

Module OCRWorker.

Record t : Type := mk {
  image_path : str;
  prompt_text : str;
  processor : option Processor;
  model : option Model
}.

(** The two Qt signals of the worker, with their payload. *)
Inductive signal : Type :=
  | log (message : str)
  | finished (result : str).

(** A computation of the worker: the signals emitted so far, in order,
    and a value or the exception that stopped it. *)
Definition W (A : Type) : Type := (list signal * result A)%type.

#[global] Instance W_ret : MRet W := fun A a => ([], Ok a).
#[global] Instance W_bind : MBind W :=
  fun A B f m =>
    match m with
    | (tr, Ok a) => let (tr', r) := f a in (tr ++ tr', r)
    | (tr, Raise e) => (tr, Raise e)
    end.

Definition emit (s : signal) : W unit := ([s], Ok tt).

Definition call {A : Type} (r : result A) : W A := ([], r).

Definition try_except {A : Type} (body : W A) (handler : exception -> W A) : W A :=
  match body with
  | (tr, Raise e) => let (tr', r) := handler e in (tr ++ tr', r)
  | (tr, Ok a) => (tr, Ok a)
  end.

Definition generation_config (eos : Z) : GenerationConfig :=
  {| max_new_tokens := 4096;
     min_new_tokens := 10;
     do_sample := false;
     repetition_penalty := 0x1.0cccccccccccdp+0%float;
     length_penalty := 1%float;
     no_repeat_ngram_size := 3;
     pad_token_id := eos;
     eos_token_id := eos;
     use_cache := true |}.

Definition missing_model_log : str := py "ОШИБКА: Модель не передана в рабочий поток!".
Definition missing_model_result : str := py "Ошибка: внутренняя ошибка приложения.".
Definition out_of_memory_msg : str := py "ОШИБКА: Недостаточно видеопамяти!".
Definition done_msg : str := py "Готово!".

(** Lines 40-134: the body of the [try]. *)
Definition run_body (E : Env) (self : t) : W unit :=
  match processor self, model self with
  | Some processor, Some model =>
      emit (log (py "Открытие изображения..."));;
      img ← call (Image_open E (image_path self) ≫= convert E ModeRGB);
      '(img, resized) ← call (downscale img);
      match resized with
      | Some new_size => emit (log (py "Изображение уменьшено до " ++ repr_size new_size))
      | None => mret tt
      end;;
      emit (log (py "Подготовка входных данных..."));;
      let messages :=
        [ {| role := py "user";
             message_content := [content_image img; content_text (prompt_text self)] |} ] in
      text_prompt ← call (apply_chat_template E processor messages false true);
      '(image_inputs, video_inputs) ← call (process_vision_info E messages);
      inputs ← call (processor_call E processor [text_prompt] image_inputs video_inputs
                       true (py "pt"));
      inputs ← call (to_device E inputs (model_device model));
      emit (log (py "Input: " ++ repr_shape (shape_of_ids (input_ids inputs))
                 ++ py ", Pixels: " ++ repr_shape (pixel_values_shape inputs)));;
      emit (log (py "Начало генерации..."));;
      let start_time := time_time E 0 in
      outputs ← call (generate E model inputs
                        (generation_config (tokenizer_eos_token_id E processor)));
      let generation_time := (time_time E 1 - start_time)%float in
      emit (log (py "Генерация завершена за " ++ PyNum.format_1f generation_time
                 ++ py " сек"));;
      let generated_ids :=
        zip_with (fun in_ids out_ids => drop (length in_ids) out_ids)
                 (input_ids inputs) outputs in
      decoded ← call (batch_decode E processor generated_ids true true);
      let result := sanitize_decoded decoded in
      emit (finished result);;
      emit (log done_msg)
  | _, _ =>
      emit (log missing_model_log);;
      emit (finished missing_model_result)
  end.

(** Lines 136-143: the two handlers. *)
Definition handler (E : Env) (e : exception) : W unit :=
  match e with
  | OutOfMemoryError _ =>
      let error_msg := out_of_memory_msg in
      emit (log error_msg);;
      emit (finished error_msg)
  | Exception msg =>
      let error_msg := py "Ошибка: " ++ msg ++ newline ++ format_exc E e in
      emit (log error_msg);;
      emit (finished [])
  end.

Definition run (E : Env) (self : t) : W unit :=
  try_except (run_body E self) (handler E).

(** The signals of one invocation, in emission order. *)
Definition signals (E : Env) (self : t) : list signal := fst (run E self).

Definition is_finished (s : signal) : bool :=
  match s with finished _ => true | log _ => false end.

Definition is_log (s : signal) : bool :=
  match s with log _ => true | finished _ => false end.

(** The number of terminal emissions in a trace. *)
Definition count_finished (tr : list signal) : nat :=
  length (filter (fun s => is_finished s = true) tr).

(** Trace shapes.  [logs_then P tr]: [tr] is a run of log signals
    followed by a tail satisfying [P]. *)
Inductive logs_then (P : list signal -> Prop) : list signal -> Prop :=
  | logs_done tr : P tr -> logs_then P tr
  | logs_more m tr : logs_then P tr -> logs_then P (log m :: tr).

(** The tail of the success path, and the tails of all paths. *)
Definition success_tail (tl : list signal) : Prop :=
  exists r, tl = [finished r; log done_msg].

Definition terminal_tail (tl : list signal) : Prop :=
  exists r, tl = [finished r] \/ tl = [finished r; log done_msg].

(** A computation that emits log signals only. *)
Definition quiet {A : Type} (m : W A) : Prop :=
  Forall (fun s => is_log s = true) m.1.

(** A [try] body that emits log signals and then either raises or ends
    with the success tail. *)
Definition body_ok (m : W unit) : Prop :=
  match m with
  | (tr, Ok _) => logs_then success_tail tr
  | (tr, Raise _) => Forall (fun s => is_log s = true) tr
  end.

(** The claim that the terminal signal closes the trace: nothing is
    emitted after the first [finished]. *)
Fixpoint finished_is_last (tr : list signal) : bool :=
  match tr with
  | [] => true
  | log _ :: tr' => finished_is_last tr'
  | finished _ :: tr' => match tr' with [] => true | _ :: _ => false end
  end.

(** The payload of the terminal signal of a trace. *)
Fixpoint finished_payload (tr : list signal) : option str :=
  match tr with
  | [] => None
  | finished r :: _ => Some r
  | log _ :: tr' => finished_payload tr'
  end.

End OCRWorker.

(** ** MainWindow *)

Module MainWindow.

Inductive dialog : Type :=
  | warning (title text : str)
  | critical (title text : str).

(** What the window does to the world outside its own fields, in order:
    message boxes, [from_pretrained] calls, [torch.cuda.empty_cache()],
    and the control of worker threads. *)
Inductive effect : Type :=
  | message_box (d : dialog)
  | load_processor (model_path : str)
  | load_weights (model_path : str)
  | empty_cache
  | thread_quit (th : nat)
  | thread_wait (th : nat)
  | thread_start (th : nat).

(** A [QThread] object: [isRunning()] and the worker moved to it. *)
Record QThread : Type := mkQThread {
  running : bool;
  moved : option OCRWorker.t
}.

(** The fields of [__init__], the contents of the widgets and of the two
    log files, the thread objects created so far (by identity), the
    effects so far and the number of clock readings so far. *)
Record t : Type := mk {
  current_model_path : option str;
  image_path : option str;
  processor : option Processor;
  model : option Model;
  thread : option nat;
  worker : option OCRWorker.t;
  prompt_templates : list (str * str);
  text_prompt : str;
  text_output : str;
  text_log : list str;
  info_log : str;
  text_log_file : str;
  clipboard : str;
  threads : gmap nat QThread;
  effects : list effect;
  clock : nat
}.

Definition set_current_model_path (v : option str) (s : t) : t :=
  mk v (image_path s) (processor s) (model s) (thread s) (worker s)
     (prompt_templates s) (text_prompt s) (text_output s) (text_log s) (info_log s)
     (text_log_file s) (clipboard s) (threads s) (effects s) (clock s).

Definition set_image_path (v : option str) (s : t) : t :=
  mk (current_model_path s) v (processor s) (model s) (thread s) (worker s)
     (prompt_templates s) (text_prompt s) (text_output s) (text_log s) (info_log s)
     (text_log_file s) (clipboard s) (threads s) (effects s) (clock s).

Definition set_handle (p : option Processor) (m : option Model) (s : t) : t :=
  mk (current_model_path s) (image_path s) p m (thread s) (worker s)
     (prompt_templates s) (text_prompt s) (text_output s) (text_log s) (info_log s)
     (text_log_file s) (clipboard s) (threads s) (effects s) (clock s).

Definition set_thread (th : option nat) (s : t) : t :=
  mk (current_model_path s) (image_path s) (processor s) (model s) th (worker s)
     (prompt_templates s) (text_prompt s) (text_output s) (text_log s) (info_log s)
     (text_log_file s) (clipboard s) (threads s) (effects s) (clock s).

Definition set_worker (w : option OCRWorker.t) (s : t) : t :=
  mk (current_model_path s) (image_path s) (processor s) (model s) (thread s) w
     (prompt_templates s) (text_prompt s) (text_output s) (text_log s) (info_log s)
     (text_log_file s) (clipboard s) (threads s) (effects s) (clock s).

Definition set_text_prompt (v : str) (s : t) : t :=
  mk (current_model_path s) (image_path s) (processor s) (model s) (thread s) (worker s)
     (prompt_templates s) v (text_output s) (text_log s) (info_log s)
     (text_log_file s) (clipboard s) (threads s) (effects s) (clock s).

Definition set_text_output (v : str) (s : t) : t :=
  mk (current_model_path s) (image_path s) (processor s) (model s) (thread s) (worker s)
     (prompt_templates s) (text_prompt s) v (text_log s) (info_log s)
     (text_log_file s) (clipboard s) (threads s) (effects s) (clock s).

Definition set_logs (lines : list str) (file : str) (s : t) : t :=
  mk (current_model_path s) (image_path s) (processor s) (model s) (thread s) (worker s)
     (prompt_templates s) (text_prompt s) (text_output s) lines file
     (text_log_file s) (clipboard s) (threads s) (effects s) (clock s).

Definition set_text_log_file (file : str) (s : t) : t :=
  mk (current_model_path s) (image_path s) (processor s) (model s) (thread s) (worker s)
     (prompt_templates s) (text_prompt s) (text_output s) (text_log s) (info_log s)
     file (clipboard s) (threads s) (effects s) (clock s).

Definition set_clipboard (v : str) (s : t) : t :=
  mk (current_model_path s) (image_path s) (processor s) (model s) (thread s) (worker s)
     (prompt_templates s) (text_prompt s) (text_output s) (text_log s) (info_log s)
     (text_log_file s) v (threads s) (effects s) (clock s).

Definition set_threads (v : gmap nat QThread) (s : t) : t :=
  mk (current_model_path s) (image_path s) (processor s) (model s) (thread s) (worker s)
     (prompt_templates s) (text_prompt s) (text_output s) (text_log s) (info_log s)
     (text_log_file s) (clipboard s) v (effects s) (clock s).

Definition perform (e : effect) (s : t) : t :=
  mk (current_model_path s) (image_path s) (processor s) (model s) (thread s) (worker s)
     (prompt_templates s) (text_prompt s) (text_output s) (text_log s) (info_log s)
     (text_log_file s) (clipboard s) (threads s) (effects s ++ [e]) (clock s).

Definition tick (s : t) : t :=
  mk (current_model_path s) (image_path s) (processor s) (model s) (thread s) (worker s)
     (prompt_templates s) (text_prompt s) (text_output s) (text_log s) (info_log s)
     (text_log_file s) (clipboard s) (threads s) (effects s) (S (clock s)).

(** [datetime.now().strftime('%H:%M:%S')]: the next reading of the clock. *)
Definition now (E : Env) (s : t) : str := now_strftime E (clock s).

(** Lines 444-452. *)
Definition log (E : Env) (message : str) (self : t) : t :=
  let timestamped_msg := py "[" ++ now E self ++ py "] " ++ message in
  tick (set_logs (text_log self ++ [timestamped_msg])
                 (info_log self ++ timestamped_msg ++ newline) self).

(** The entry that [display_result] writes to text.log: the time, the
    payload and a line of fifty dashes. *)
Definition text_log_entry (time result : str) : str :=
  py "[" ++ time ++ py "] Распознан текст:" ++ newline
  ++ result ++ newline ++ replicate 50 45%N ++ newline.

(** Lines 437-442. *)
Definition display_result (E : Env) (result : str) (self : t) : t :=
  let self' := set_text_output result self in
  tick (set_text_log_file (text_log_file self ++ text_log_entry (now E self) result) self').

Definition str_of_exception (e : exception) : str :=
  match e with OutOfMemoryError msg | Exception msg => msg end.

Definition empty_cache_if_available (E : Env) (self : t) : t :=
  if cuda_is_available E then perform empty_cache self else self.

(** Lines 454-484: the pair returned and the window afterwards. *)
Definition load_model (E : Env) (model_path : str) (self : t)
  : option Processor * option Model * t :=
  let failed (e : exception) (self : t) :=
    let error_msg := py "❌ Ошибка загрузки: " ++ str_of_exception e ++ newline
                     ++ format_exc E e in
    (None, None, log E error_msg self) in
  let self := perform (load_processor model_path) self in
  match AutoProcessor_from_pretrained E model_path with
  | Raise e => failed e self
  | Ok processor =>
      let self := empty_cache_if_available E self in
      let self := perform (load_weights model_path) self in
      match Model_from_pretrained E model_path with
      | Raise e => failed e self
      | Ok model =>
          let self := log E (py "✅ Модель загружена успешно.") self in
          let self := log E (py "Устройство: " ++ model_device model) self in
          let self :=
            match quantization_method model with
            | Some q => log E (py "Метод квантования: " ++ q) self
            | None => self
            end in
          (Some processor, Some model, self)
      end
  end.

(** Lines 355-360; [data] is [combo_model.itemData(index)]. *)
Definition on_model_changed (E : Env) (data : option str) (self : t) : t :=
  match data with
  | Some ((_ :: _) as model_path) =>
      log E (py "✅ Выбрана модель: " ++ basename E model_path)
          (set_current_model_path (Some model_path) self)
  | Some [] | None => self
  end.

(** [prompt_templates.get(short_name, "")]. *)
Fixpoint dict_get (d : list (str * str)) (key : str) : str :=
  match d with
  | [] => []
  | (k, v) :: d' => if decide (k = key) then v else dict_get d' key
  end.

(** Lines 362-367; the combo box lists a placeholder and then the keys. *)
Definition on_template_selected (index : Z) (self : t) : t :=
  if (0 <? index)%Z then
    let items := py "Выбрать шаблон..." :: map fst (prompt_templates self) in
    let short_name := default [] (items !! Z.to_nat index) in
    let full_prompt := dict_get (prompt_templates self) short_name in
    set_text_prompt full_prompt self
  else self.

(** Lines 369-376; [path] is what the file dialog returned. *)
Definition choose_image (E : Env) (path : str) (self : t) : t :=
  match path with
  | _ :: _ => log E (py "✅ Выбран файл: " ++ basename E path) (set_image_path (Some path) self)
  | [] => self
  end.

(** Lines 427-435. *)
Definition copy_result_to_clipboard (E : Env) (self : t) : t :=
  let text := text_output self in
  match strip text with
  | _ :: _ => log E (py "✅ Текст успешно скопирован в буфер обмена.") (set_clipboard text self)
  | [] => log E (py "⚠️ Нет текста для копирования.") self
  end.

Definition is_running (self : t) (th : nat) : bool :=
  match threads self !! th with
  | Some q => running q
  | None => false
  end.

(** Lines 400-402: [quit()] asks the thread's event loop to exit and
    [wait()] returns once the thread has finished.  A thread that was
    stopped here and is still held in [self.thread] (the blank-prompt
    return of line 407) is deleted by line 422 once control is back in the
    event loop; on such a deleted object [isRunning()] raises in PySide,
    which this definition does not model: it reads the thread as not
    running.  Statements that depend on what happens then assume
    [thread_alive]. *)
Definition stop_previous (self : t) : t :=
  match thread self with
  | Some th =>
      if is_running self th then
        let self := perform (thread_quit th) self in
        let self := perform (thread_wait th) self in
        set_threads (alter (fun q => {| running := false; moved := moved q |}) th
                           (threads self)) self
      else self
  | None => self
  end.

Definition handle_missing (self : t) : bool :=
  match processor self, model self with
  | Some _, Some _ => false
  | _, _ => true
  end.

(** Lines 395-425. *)
Definition dispatch (E : Env) (image_path : str) (self : t) : t :=
  let self := set_text_output [] self in
  let self := empty_cache_if_available E self in
  let self := stop_previous self in
  let prompt_text := strip (text_prompt self) in
  match prompt_text with
  | [] => perform (message_box (warning (py "Внимание") (py "Пожалуйста, введите промт."))) self
  | _ :: _ =>
      let th := fresh (dom (threads self)) in
      let worker :=
        {| OCRWorker.image_path := image_path;
           OCRWorker.prompt_text := prompt_text;
           OCRWorker.processor := processor self;
           OCRWorker.model := model self |} in
      let self := set_worker (Some worker) (set_thread (Some th) self) in
      let self := perform (thread_start th) self in
      set_threads (<[th := {| running := true; moved := Some worker |}]> (threads self)) self
  end.

(** Lines 378-425. *)
Definition start_ocr (E : Env) (self : t) : t :=
  match image_path self with
  | None | Some [] =>
      perform (message_box (warning (py "Внимание") (py "Пожалуйста, выберите изображение."))) self
  | Some ((_ :: _) as image_path) =>
      match current_model_path self with
      | None | Some [] =>
          perform (message_box (critical (py "Ошибка") (py "Модель не выбрана."))) self
      | Some ((_ :: _) as model_path) =>
          if handle_missing self then
            let self := log E (py "🔄 Загрузка модели...") self in
            let '(p, m, self) := load_model E model_path self in
            let self := set_handle p m self in
            if handle_missing self then
              perform (message_box (critical (py "Ошибка") (py "Не удалось загрузить модель."))) self
            else dispatch E image_path self
          else dispatch E image_path self
      end
  end.

(** The slots connected to the worker's signals (lines 419-420). *)
Definition on_signal (E : Env) (s : OCRWorker.signal) (self : t) : t :=
  match s with
  | OCRWorker.log message => log E message self
  | OCRWorker.finished result => display_result E result self
  end.

(** Queued signals reach the slots in emission order. *)
Definition deliver (E : Env) (tr : list OCRWorker.signal) (self : t) : t :=
  foldl (fun st s => on_signal E s st) self tr.

(** What can happen to the window between two returns to the event loop. *)
Inductive event : Type :=
  | run_clicked
  | image_chosen (path : str)
  | model_changed (data : option str)
  | template_selected (index : Z)
  | prompt_edited (text : str)
  | copy_clicked
  | worker_signal (s : OCRWorker.signal).

Definition step (E : Env) (self : t) (ev : event) : t :=
  match ev with
  | run_clicked => start_ocr E self
  | image_chosen path => choose_image E path self
  | model_changed data => on_model_changed E data self
  | template_selected index => on_template_selected index self
  | prompt_edited text => set_text_prompt text self
  | copy_clicked => copy_result_to_clipboard E self
  | worker_signal s => on_signal E s self
  end.

Definition run_events (E : Env) (self : t) (evs : list event) : t :=
  foldl (step E) self evs.

(** The fields as [__init__] leaves them (lines 154-159), with the model
    found by [populate_model_combo] and the prompt of [_build_ui].  The
    log lines that [_build_ui] and [populate_model_combo] write during
    startup are left out: the log view and the log files start empty
    here. *)
Definition init (first_model : option str) (templates : list (str * str)) : t :=
  {| current_model_path := first_model;
     image_path := None;
     processor := None;
     model := None;
     thread := None;
     worker := None;
     prompt_templates := templates;
     text_prompt := default [] (snd <$> head templates);
     text_output := [];
     text_log := [];
     info_log := [];
     text_log_file := [];
     clipboard := [];
     threads := ∅;
     effects := [];
     clock := 0 |}.

(** States in which no thread has been created yet. *)
Definition no_threads (self : t) : Prop :=
  thread self = None /\ threads self = ∅.

(** At most one thread is running, and it is the one the window holds. *)
Definition only_current_runs (self : t) : Prop :=
  forall th, is_running self th = true -> thread self = Some th.

(** The window holds no stopped thread: [self.thread] is [None] or a
    thread that is running. *)
Definition thread_alive (self : t) : Prop :=
  match thread self with
  | Some th => is_running self th = true
  | None => True
  end.

(** The number of [from_pretrained] calls among the effects. *)
Definition is_load (e : effect) : bool :=
  match e with
  | load_processor _ | load_weights _ => true
  | _ => false
  end.

Definition is_thread_op (e : effect) : bool :=
  match e with
  | thread_quit _ | thread_wait _ | thread_start _ => true
  | _ => false
  end.

Definition load_count (self : t) : nat :=
  length (filter (fun e => is_load e = true) (effects self)).

End MainWindow.

(** ** A concrete environment

    Used to evaluate the program on explicit inputs: a 2000x1001 RGBA
    image, a model that generates three new tokens and a decoder that
    returns a short markdown text. *)

Definition sample_image : Image :=
  {| im_mode := ModeRGBA; im_size := (2000, 1001)%Z; im_filter := None |}.

Definition sample_env : Env :=
  {| Image_open := fun _ => Ok sample_image;
     load_error := fun _ => None;
     apply_chat_template := fun _ _ _ _ => Ok (py "<|im_start|>user");
     process_vision_info := fun _ => Ok ([], []);
     processor_call := fun _ _ _ _ _ _ =>
       Ok {| input_ids := [[1; 2; 3]%Z];
             pixel_values_shape := [4; 1176]%Z;
             feature_device := py "cpu" |};
     to_device := fun f d =>
       Ok {| input_ids := input_ids f;
             pixel_values_shape := pixel_values_shape f;
             feature_device := d |};
     tokenizer_eos_token_id := fun _ => 151645%Z;
     generate := fun _ _ _ => Ok [[1; 2; 3; 10; 11; 12]%Z];
     batch_decode := fun _ _ _ _ => Ok [py "# Invoice 42"];
     time_time := fun n => match n with O => 100%float | _ => 102.5%float end;
     format_exc := fun _ => py "Traceback (most recent call last):";
     AutoProcessor_from_pretrained := fun path => Ok {| processor_source := path |};
     Model_from_pretrained := fun path =>
       Ok {| model_source := path;
             model_device := py "cuda:0";
             quantization_method := None |};
     cuda_is_available := true;
     now_strftime := fun _ => py "12:00:00";
     basename := fun path => path |}.

(** The same environment with a [generate] that raises [e]. *)
Definition failing_env (e : exception) : Env :=
  {| Image_open := Image_open sample_env;
     load_error := load_error sample_env;
     apply_chat_template := apply_chat_template sample_env;
     process_vision_info := process_vision_info sample_env;
     processor_call := processor_call sample_env;
     to_device := to_device sample_env;
     tokenizer_eos_token_id := tokenizer_eos_token_id sample_env;
     generate := fun _ _ _ => Raise e;
     batch_decode := batch_decode sample_env;
     time_time := time_time sample_env;
     format_exc := format_exc sample_env;
     AutoProcessor_from_pretrained := AutoProcessor_from_pretrained sample_env;
     Model_from_pretrained := Model_from_pretrained sample_env;
     cuda_is_available := cuda_is_available sample_env;
     now_strftime := now_strftime sample_env;
     basename := basename sample_env |}.

Definition sample_processor : Processor := {| processor_source := py "model_bnb4/a" |}.

Definition sample_model : Model :=
  {| model_source := py "model_bnb4/a";
     model_device := py "cuda:0";
     quantization_method := None |}.

Definition sample_worker : OCRWorker.t :=
  {| OCRWorker.image_path := py "page.png";
     OCRWorker.prompt_text := py "Extract text as plain, unformatted lines.";
     OCRWorker.processor := Some sample_processor;
     OCRWorker.model := Some sample_model |}.

(** A worker that was never given the model (the fields keep the [None]
    of [__init__]). *)
Definition bare_worker : OCRWorker.t :=
  {| OCRWorker.image_path := py "page.png";
     OCRWorker.prompt_text := py "Extract text as plain, unformatted lines.";
     OCRWorker.processor := None;
     OCRWorker.model := None |}.

(** Image preparation in the words of section 4.1 of the specification:
    the decoded image is converted to RGB; up to 1536 pixels on the longer
    side it keeps its size; above, each dimension becomes
    [round(dim * ratio)] and the resampling filter is anti-aliased. *)
Definition spec_prepared (E : Env) (image_path : str) : Prop :=
  forall img, Image_open E image_path = Ok img -> load_error E img = None ->
    exists img' resized, prepare E image_path = Ok (img', resized)
      /\ im_mode img' = ModeRGB
      /\ if (Z.max (fst (im_size img)) (snd (im_size img)) <=? max_size)%Z
         then im_size img' = im_size img
         else spec_new_size (im_size img) = Some (im_size img')
              /\ exists f, im_filter img' = Some f /\ antialiased f = true.

(** Windows used to evaluate the supervisor: one ready to dispatch (image
    and model selected, default prompt), the same with a blank prompt and
    an earlier result on display, and one whose worker thread is running
    when the prompt is blanked. *)
Definition sample_templates : list (str * str) :=
  [(py "Plain Text", py "Extract text as plain, unformatted lines.")].

Definition ready_window : MainWindow.t :=
  MainWindow.set_image_path (Some (py "page.png"))
    (MainWindow.init (Some (py "model_bnb4/a")) sample_templates).

Definition blank_prompt_window : MainWindow.t :=
  MainWindow.set_text_output (py "previous result")
    (MainWindow.set_text_prompt (py "   ") ready_window).

Definition busy_window : MainWindow.t :=
  MainWindow.start_ocr sample_env ready_window.

Definition busy_blank_prompt_window : MainWindow.t :=
  MainWindow.set_text_output (py "previous result")
    (MainWindow.set_text_prompt [] busy_window).

(** * Properties *)

(** ** Sanitizer *)

Example sanitize_scenario2 : sanitize scenario2_input = py "Hello".
Proof. reflexivity. Qed.

Example sanitize_doubly_fenced : sanitize doubly_fenced = py "```markdown hello".
Proof. reflexivity. Qed.

Section StringFacts.

Implicit Types s p t u w x y : str.

Lemma startswith_spec s p : startswith s p = true <-> exists t, s = p ++ t.
Proof.
  revert s; induction p as [|c p IH]; intros s; simpl.
  - split; [eauto|reflexivity].
  - destruct s as [|d s].
    + split; [discriminate|]. intros [t Ht]; discriminate.
    + rewrite andb_true_iff, N.eqb_eq, IH. split.
      * intros [-> [t ->]]; eauto.
      * intros [t Ht]; injection Ht as -> ->; eauto.
Qed.

Lemma endswith_spec s p : endswith s p = true <-> exists u, s = u ++ p.
Proof.
  unfold endswith. rewrite startswith_spec. split.
  - intros [t Ht]. exists (reverse t).
    rewrite <- (reverse_involutive s), Ht, reverse_app.
    now rewrite reverse_involutive.
  - intros [u ->]. exists (reverse u). apply reverse_app.
Qed.

Lemma lstrip_decomp s :
  exists w, s = w ++ lstrip s /\ forallb is_space w = true.
Proof.
  induction s as [|c s [w [Hs Hw]]]; simpl.
  - now exists [].
  - destruct (is_space c) eqn:Hc.
    + exists (c :: w); simpl. rewrite Hc, Hw, <- Hs; auto.
    + now exists [].
Qed.

Lemma rstrip_decomp s :
  exists w, s = rstrip s ++ w /\ forallb is_space w = true.
Proof.
  destruct (lstrip_decomp (reverse s)) as [w [Hs Hw]].
  exists (reverse w); split.
  - unfold rstrip. rewrite <- reverse_app, <- Hs. now rewrite reverse_involutive.
  - rewrite forallb_forall in *. intros c Hc. apply Hw.
    apply list_elem_of_In, elem_of_reverse, list_elem_of_In, Hc.
Qed.

Lemma lstrip_no_lead s : no_lead (lstrip s).
Proof.
  induction s as [|c s IH]; simpl.
  - intros c; discriminate.
  - destruct (is_space c) eqn:Hc; [exact IH|].
    intros d [= <-]; exact Hc.
Qed.

Lemma lstrip_id s : no_lead s -> lstrip s = s.
Proof.
  destruct s as [|c s]; simpl; [reflexivity|].
  intros H. now rewrite (H c eq_refl).
Qed.

Lemma lstrip_app_nonspace x c y :
  is_space c = false -> lstrip (x ++ c :: y) = lstrip x ++ c :: y.
Proof.
  intros Hc. induction x as [|d x IH]; simpl.
  - now rewrite Hc.
  - destruct (is_space d); [exact IH|reflexivity].
Qed.

Lemma no_trail_reverse s : no_trail s <-> no_lead (reverse s).
Proof. unfold no_trail, no_lead. now rewrite head_reverse. Qed.

Lemma rstrip_no_trail s : no_trail (rstrip s).
Proof.
  apply no_trail_reverse. unfold rstrip. rewrite reverse_involutive.
  apply lstrip_no_lead.
Qed.

Lemma rstrip_id s : no_trail s -> rstrip s = s.
Proof.
  intros H. unfold rstrip. rewrite lstrip_id by now apply no_trail_reverse.
  apply reverse_involutive.
Qed.

Lemma rstrip_app_nonspace x c y :
  is_space c = false -> rstrip (x ++ c :: y) = x ++ c :: rstrip y.
Proof.
  intros Hc. unfold rstrip.
  rewrite reverse_app, reverse_cons, <- app_assoc; simpl.
  rewrite lstrip_app_nonspace by exact Hc.
  rewrite reverse_app, reverse_cons, reverse_involutive, <- app_assoc.
  reflexivity.
Qed.

Lemma no_lead_prefix s t : no_lead (s ++ t) -> no_lead s.
Proof.
  destruct s as [|c s]; [intros _ d; discriminate|].
  intros H d Hd; apply H; exact Hd.
Qed.

Lemma no_trail_suffix s t : no_trail (s ++ t) -> no_trail t.
Proof.
  rewrite !no_trail_reverse, reverse_app. apply no_lead_prefix.
Qed.

Lemma strip_no_lead s : no_lead (strip s).
Proof.
  unfold strip. destruct (rstrip_decomp (lstrip s)) as [w [Hw _]].
  apply (no_lead_prefix _ w). rewrite <- Hw. apply lstrip_no_lead.
Qed.

Lemma strip_no_trail s : no_trail (strip s).
Proof. apply rstrip_no_trail. Qed.

Lemma stripped_iff s : stripped s <-> no_lead s /\ no_trail s.
Proof.
  unfold stripped; split.
  - intros <-; split; [apply strip_no_lead|apply strip_no_trail].
  - intros [Hl Ht]. unfold strip. now rewrite lstrip_id, rstrip_id.
Qed.

Lemma strip_eq_rstrip s : no_lead s -> strip s = rstrip s.
Proof. intros H. unfold strip. now rewrite lstrip_id. Qed.

Lemma strip_eq_lstrip s : no_trail (lstrip s) -> strip s = lstrip s.
Proof. intros H. unfold strip. now apply rstrip_id. Qed.

End StringFacts.

Section SanitizerFacts.

Implicit Types r d : str.

Lemma fence_chars : fence = [96; 96; 96; 109; 97; 114; 107; 100; 111; 119; 110]%N.
Proof. reflexivity. Qed.

Lemma ticks_chars : ticks = [96; 96; 96]%N.
Proof. reflexivity. Qed.

(** What [strip_leading_fence] removes: nothing, or the marker and the
    whitespace that follows it. *)
Lemma strip_leading_fence_decomp r :
  exists p, r = p ++ strip_leading_fence r /\
    if startswith r fence
    then exists w, p = fence ++ w /\ forallb is_space w = true
    else p = [].
Proof.
  unfold strip_leading_fence, slice_from.
  destruct (startswith r fence) eqn:Hs.
  - apply startswith_spec in Hs as [t ->].
    rewrite drop_app_length.
    destruct (lstrip_decomp t) as [w [Ht Hw]].
    exists (fence ++ w); split; [|eauto].
    now rewrite <- app_assoc, <- Ht.
  - now exists [].
Qed.

(** What [strip_trailing_fence] removes: nothing, or the closing marker
    and the whitespace that precedes it. *)
Lemma strip_trailing_fence_decomp r :
  exists s, r = strip_trailing_fence r ++ s /\
    if endswith r ticks
    then exists w, s = w ++ ticks /\ forallb is_space w = true
    else s = [].
Proof.
  unfold strip_trailing_fence, slice_to_neg.
  destruct (endswith r ticks) eqn:He.
  - apply endswith_spec in He as [u ->].
    rewrite length_app, Nat.add_sub, take_app_length.
    destruct (rstrip_decomp u) as [w [Hu Hw]].
    exists (w ++ ticks); split; [|eauto].
    now rewrite app_assoc, <- Hu.
  - exists []. now rewrite app_nil_r.
Qed.

Lemma strip_leading_fence_no_lead r : no_lead r -> no_lead (strip_leading_fence r).
Proof.
  intros H. unfold strip_leading_fence.
  destruct (startswith r fence); [apply lstrip_no_lead|exact H].
Qed.

Lemma strip_leading_fence_no_trail r : no_trail r -> no_trail (strip_leading_fence r).
Proof.
  intros H. destruct (strip_leading_fence_decomp r) as [p [Hr _]].
  apply (no_trail_suffix p). now rewrite <- Hr.
Qed.

Lemma strip_trailing_fence_no_lead r : no_lead r -> no_lead (strip_trailing_fence r).
Proof.
  intros H. destruct (strip_trailing_fence_decomp r) as [s [Hr _]].
  apply (no_lead_prefix _ s). now rewrite <- Hr.
Qed.

Lemma strip_trailing_fence_no_trail r : no_trail r -> no_trail (strip_trailing_fence r).
Proof.
  intros H. unfold strip_trailing_fence.
  destruct (endswith r ticks); [apply rstrip_no_trail|exact H].
Qed.

Lemma strip_fences_stripped d : stripped (strip_fences (strip d)).
Proof.
  apply stripped_iff. unfold strip_fences. split.
  - apply strip_trailing_fence_no_lead, strip_leading_fence_no_lead, strip_no_lead.
  - apply strip_trailing_fence_no_trail, strip_leading_fence_no_trail, strip_no_trail.
Qed.

(** On a stripped string the one-sided trimming of the source is the
    two-sided trimming of the specification. *)
Lemma strip_fences_refines_spec d :
  strip_fences (strip d) = spec_strip_fences (strip d).
Proof.
  unfold strip_fences, spec_strip_fences.
  assert (Hl : no_lead (strip d)) by apply strip_no_lead.
  assert (Ht : no_trail (strip d)) by apply strip_no_trail.
  assert (E : (if startswith (strip d) fence
               then strip (slice_from (strip d) (length fence))
               else strip d) = strip_leading_fence (strip d)).
  { pose proof (strip_leading_fence_no_trail _ Ht) as H.
    unfold strip_leading_fence in *.
    destruct (startswith (strip d) fence); [|reflexivity].
    now apply strip_eq_lstrip. }
  cbv zeta. rewrite E.
  pose proof (strip_leading_fence_no_lead _ Hl) as Hl1.
  pose proof (strip_trailing_fence_decomp (strip_leading_fence (strip d))) as [s [Hs _]].
  unfold strip_trailing_fence in *.
  destruct (endswith (strip_leading_fence (strip d)) ticks) eqn:He; [|reflexivity].
  symmetry; apply strip_eq_rstrip.
  apply endswith_spec in He as [u Hu]. rewrite Hu in *.
  unfold slice_to_neg. rewrite length_app, Nat.add_sub, take_app_length.
  now apply (no_lead_prefix _ ticks).
Qed.

(** The opening marker does not overlap a shifted copy of itself. *)
Lemma fence_no_overlap a b t :
  a ++ fence ++ b = fence ++ t -> a <> [] -> exists a0, a = fence ++ a0.
Proof.
  rewrite fence_chars. intros H Ha.
  destruct a as [|c a]; [congruence|].
  do 10 (simpl in H; injection H as -> H;
         destruct a as [|c a]; [simpl in H; congruence|]).
  simpl in H; injection H as -> H. eauto.
Qed.

(** A string that ends with the opening marker followed by fewer than
    three characters does not end with the closing marker. *)
Lemma ticks_after_fence a b u :
  a ++ fence ++ b = u ++ ticks -> exists b0, b = b0 ++ ticks.
Proof.
  rewrite fence_chars, ticks_chars. intros H.
  apply (f_equal reverse) in H as Hr.
  rewrite !reverse_app in Hr. change (reverse [96; 96; 96]%N) with [96; 96; 96]%N in Hr.
  change (reverse [96; 96; 96; 109; 97; 114; 107; 100; 111; 119; 110]%N)
    with [110; 119; 111; 100; 107; 114; 97; 109; 96; 96; 96]%N in Hr.
  destruct (reverse b) as [|c1 [|c2 [|c3 rb]]] eqn:Hb; simpl in Hr; try congruence.
  injection Hr as -> -> -> _.
  exists (reverse rb).
  rewrite <- (reverse_involutive b), Hb.
  now rewrite !reverse_cons, <- !app_assoc.
Qed.

(** An occurrence of the opening marker that is not at the very start
    of the stripped text survives fence stripping. *)
Lemma interior_fence_kept r a b :
  r = a ++ fence ++ b -> a <> [] ->
  exists a' b', strip_fences r = a' ++ fence ++ b'
                /\ a' `suffix_of` a /\ b' `prefix_of` b.
Proof.
  intros Hr Ha.
  assert (Hq : is_space 96%N = false) by reflexivity.
  assert (Hn : is_space 110%N = false) by reflexivity.
  assert (H1 : exists a1, strip_leading_fence r = a1 ++ fence ++ b /\ a1 `suffix_of` a).
  { unfold strip_leading_fence, slice_from.
    destruct (startswith r fence) eqn:Hs.
    - apply startswith_spec in Hs as [t Ht]. rewrite Hr in Ht.
      destruct (fence_no_overlap _ _ _ Ht Ha) as [a0 ->].
      rewrite Hr, <- app_assoc, drop_app_length.
      exists (lstrip a0). split.
      + rewrite fence_chars; simpl. now apply lstrip_app_nonspace.
      + destruct (lstrip_decomp a0) as [w [Hw _]].
        exists (fence ++ w). now rewrite <- app_assoc, <- Hw.
    - exists a; split; [exact Hr|reflexivity]. }
  destruct H1 as [a1 [E1 Sa]].
  unfold strip_fences, strip_trailing_fence, slice_to_neg. rewrite E1.
  destruct (endswith (a1 ++ fence ++ b) ticks) eqn:He.
  - apply endswith_spec in He as [u Hu].
    destruct (ticks_after_fence _ _ _ Hu) as [b0 ->].
    rewrite !app_assoc, length_app, Nat.add_sub, take_app_length.
    exists a1, (rstrip b0). split; [|split; [exact Sa|]].
    + rewrite fence_chars, <- !app_assoc.
      change ([96; 96; 96; 109; 97; 114; 107; 100; 111; 119; 110]%N ++ b0)
        with ([96; 96; 96; 109; 97; 114; 107; 100; 111; 119]%N ++ 110%N :: b0).
      rewrite !app_assoc, rstrip_app_nonspace by exact Hn.
      now rewrite <- !app_assoc.
    + destruct (rstrip_decomp b0) as [w [Hw _]].
      exists (w ++ ticks). now rewrite app_assoc, <- Hw.
  - exists a1, b. split; [reflexivity|split; [exact Sa|reflexivity]].
Qed.

End SanitizerFacts.

(** C6 (as stated, refuted). The decoded text
    "```markdown```markdown hello" is sanitized to "```markdown hello":
    sixteen characters, not the sentinel, and still opening with the
    marker, so the result is not fence-free. *)
Lemma sanitize_keeps_second_fence : ~ spec_sanitized doubly_fenced.
Proof.
  unfold spec_sanitized. intros [[H _]|[_ [_ [_ [H _]]]]].
  - vm_compute in H. lia.
  - vm_compute in H. discriminate.
Qed.

(** C6 (amended). For every decoded string, [sanitize] returns the
    sentinel exactly when the text left after fence stripping and trimming
    has fewer than five characters; otherwise it returns that text, which
    is non-empty, stripped and of length at least five.  One leading
    marker and one trailing marker are removed: the result still starts
    with "```markdown" only when the text after the removed leading marker
    started with the marker again, and still ends with "```" only when the
    text before the removed trailing marker ended with it again. *)
Theorem sanitize_result (d : str) :
  let r0 := strip d in
  let r1 := strip_leading_fence r0 in
  let r := strip_fences r0 in
  (length r < 5 /\ sanitize d = sentinel) \/
  (5 <= length r /\ sanitize d = r /\ sanitize d <> []
   /\ stripped (sanitize d) /\ 5 <= length (sanitize d)
   /\ (startswith (sanitize d) fence = true ->
       startswith r0 fence = true /\ startswith r1 fence = true)
   /\ (endswith (sanitize d) ticks = true ->
       exists u, r1 = u ++ ticks /\ endswith (rstrip u) ticks = true)).
Proof.
  cbv zeta. unfold sanitize, replace_short.
  destruct (Nat.ltb_spec (length (strip_fences (strip d))) 5) as [Hlt|Hge].
  - left. split; [exact Hlt|reflexivity].
  - right. split; [exact Hge|]. split; [reflexivity|].
    split; [intros E; rewrite E in Hge; simpl in Hge; lia|].
    split; [apply strip_fences_stripped|]. split; [exact Hge|].
    unfold strip_fences. split.
    + intros Hs.
      destruct (strip_trailing_fence_decomp (strip_leading_fence (strip d)))
        as [s [Hr1 _]].
      apply startswith_spec in Hs as [t Ht].
      assert (H1 : startswith (strip_leading_fence (strip d)) fence = true).
      { apply startswith_spec. exists (t ++ s).
        now rewrite Hr1 at 1; rewrite Ht, <- app_assoc. }
      split; [|exact H1].
      unfold strip_leading_fence in H1 |- *.
      destruct (startswith (strip d) fence) eqn:E; [reflexivity|].
      rewrite E in H1; discriminate.
    + intros He. unfold strip_trailing_fence, slice_to_neg in He.
      destruct (endswith (strip_leading_fence (strip d)) ticks) eqn:E.
      * apply endswith_spec in E as [u Hu]. exists u. split; [exact Hu|].
        rewrite Hu, length_app, Nat.add_sub, take_app_length in He. exact He.
      * rewrite E in He; discriminate.
Qed.

(** C7. Fence stripping removes, from the stripped decoded text, only a
    leading "```markdown" with the whitespace after it and a trailing
    "```" with the whitespace before it; trimming one side after each
    removal, as the source does, equals trimming both sides; an occurrence
    of "```markdown" that is not at the very start stays in the result;
    and the text of scenario 2 is sanitized to exactly "Hello". *)
Theorem fence_stripping_exact :
  sanitize scenario2_input = py "Hello"
  /\ (forall d : str, exists p s : str,
        strip d = p ++ strip_fences (strip d) ++ s
        /\ (if startswith (strip d) fence
            then exists w, p = fence ++ w /\ forallb is_space w = true
            else p = [])
        /\ (if endswith (strip_leading_fence (strip d)) ticks
            then exists w, s = w ++ ticks /\ forallb is_space w = true
            else s = []))
  /\ (forall d : str, strip_fences (strip d) = spec_strip_fences (strip d))
  /\ (forall d a b : str,
        strip d = a ++ fence ++ b -> a <> [] ->
        exists a' b' : str,
          strip_fences (strip d) = a' ++ fence ++ b'
          /\ a' `suffix_of` a /\ b' `prefix_of` b).
Proof.
  split; [reflexivity|]. split; [|split].
  - intros d.
    destruct (strip_leading_fence_decomp (strip d)) as [p [Hp Cp]].
    destruct (strip_trailing_fence_decomp (strip_leading_fence (strip d)))
      as [s [Hs Cs]].
    exists p, s. split; [|split; assumption].
    unfold strip_fences. now rewrite <- Hs.
  - apply strip_fences_refines_spec.
  - intros d a b Hd Ha. now apply interior_fence_kept.
Qed.

(** An instance of the interior clause of [fence_stripping_exact]: the
    second marker of "x```markdown y" is kept. *)
Lemma fence_stripping_exact_witness :
  exists a' b' : str,
    strip_fences (strip (py "x```markdown y")) = a' ++ fence ++ b'
    /\ a' `suffix_of` py "x" /\ b' `prefix_of` py " y".
Proof.
  apply (proj2 (proj2 (proj2 fence_stripping_exact))
           (py "x```markdown y") (py "x") (py " y")).
  - reflexivity.
  - discriminate.
Defined.

(** The batch of line 121 holds one string: the worker sanitizes it, and
    an empty batch yields the sentinel. *)
Lemma sanitize_decoded_cons (d : str) (rest : list str) :
  sanitize_decoded (d :: rest) = sanitize d.
Proof. reflexivity. Qed.

Lemma sanitize_decoded_nil : sanitize_decoded [] = sentinel.
Proof. reflexivity. Qed.

(** Idempotence (section 8 of the specification): a stripped, fence-free
    string of at least five characters is returned unchanged. *)
Theorem sanitize_idempotent (s : str) :
  stripped s -> fence_free s = true -> 5 <= length s -> sanitize s = s.
Proof.
  intros Hs Hf Hl. unfold sanitize. rewrite Hs.
  apply andb_true_iff in Hf as [Hf1 Hf2].
  apply negb_true_iff in Hf1, Hf2.
  unfold strip_fences, strip_leading_fence. rewrite Hf1.
  unfold strip_trailing_fence. rewrite Hf2.
  unfold replace_short. destruct (Nat.ltb_spec (length s) 5); [lia|reflexivity].
Qed.

Lemma sanitize_idempotent_witness : sanitize (py "Hello") = py "Hello".
Proof.
  apply (sanitize_idempotent (py "Hello")).
  - reflexivity.
  - reflexivity.
  - vm_compute. lia.
Defined.

(** ** Image preparation *)

Section ImageFacts.

Open Scope Z_scope.

Lemma trunc_scaled_nonneg m e : 0 < m -> 0 <= PyNum.trunc_scaled m e.
Proof.
  intros Hm. unfold PyNum.trunc_scaled.
  destruct (0 <=? e) eqn:He.
  - apply Z.leb_le in He. apply Z.mul_nonneg_nonneg; [lia|]. now apply Z.pow_nonneg.
  - apply Z.div_pos; [lia|]. apply Z.pow_pos_nonneg; [lia|]. apply Z.leb_gt in He. lia.
Qed.

(** Rounding to nearest gives the truncation or the next integer. *)
Lemma trunc_le_round m e :
  0 < m ->
  PyNum.trunc_scaled m e <= PyNum.round_scaled m e <= PyNum.trunc_scaled m e + 1.
Proof.
  intros Hm. unfold PyNum.trunc_scaled, PyNum.round_scaled.
  destruct (0 <=? e); [lia|]. cbv zeta.
  repeat match goal with |- context [if ?b then _ else _] => destruct b end; lia.
Qed.

Lemma int_near_round x t :
  PyNum.int x = Some t ->
  exists r, PyNum.round x = Some r /\ Z.abs t <= Z.abs r <= Z.abs t + 1.
Proof.
  unfold PyNum.int, PyNum.round.
  destruct (Prim2SF x) as [s|s| |s m e]; try discriminate; intros [= <-].
  - exists 0. split; [reflexivity|lia].
  - exists (PyNum.signed s (PyNum.round_scaled (Z.pos m) e)). split; [reflexivity|].
    pose proof (trunc_scaled_nonneg (Z.pos m) e ltac:(lia)).
    pose proof (trunc_le_round (Z.pos m) e ltac:(lia)).
    destruct s; simpl; lia.
Qed.

End ImageFacts.

(** C5 (as stated, refuted). A 2000x1001 image is resized to 1536x768:
    1001 * (1536 / 2000) is 768.768 and is truncated, where rounding
    gives 769. *)
Lemma truncation_not_rounding : ~ spec_prepared sample_env (py "page.png").
Proof.
  intros H. destruct (H sample_image eq_refl eq_refl) as (img' & resized & Hp & _ & Hs).
  vm_compute in Hp. injection Hp as <- _.
  vm_compute in Hs. destruct Hs as [Hs _]. discriminate.
Qed.

(** C5 (amended). A decoded image is converted to RGB.  If
    max(width, height) <= 1536 both dimensions are unchanged and nothing is
    resampled.  If max(width, height) > 1536, each new dimension is
    [int(dim * ratio)] with the binary64 [ratio = 1536 / max(width, height)],
    computed independently per axis: the product truncated toward zero,
    which is [round(dim * ratio)] or one less; when both are at least one
    the image is resampled to that size with the anti-aliased LANCZOS
    filter. *)
Theorem prepare_truncates (E : Env) (image_path : str) (img : Image) :
  Image_open E image_path = Ok img -> load_error E img = None ->
  let size := im_size img in
  ((Z.max (fst size) (snd size) <= 1536)%Z ->
     prepare E image_path
     = Ok ({| im_mode := ModeRGB; im_size := size; im_filter := im_filter img |}, None))
  /\ ((1536 < Z.max (fst size) (snd size))%Z ->
      forall w h : Z,
        PyNum.int (scaled (fst size) (ratio size)) = Some w ->
        PyNum.int (scaled (snd size) (ratio size)) = Some h ->
        ((1 <= w)%Z -> (1 <= h)%Z ->
           prepare E image_path
           = Ok ({| im_mode := ModeRGB; im_size := (w, h); im_filter := Some LANCZOS |},
                 Some (w, h)))
        /\ antialiased LANCZOS = true
        /\ exists rw rh : Z,
             spec_new_size size = Some (rw, rh)
             /\ (Z.abs w <= Z.abs rw <= Z.abs w + 1)%Z
             /\ (Z.abs h <= Z.abs rh <= Z.abs h + 1)%Z).
Proof.
  intros Hopen Hload size.
  assert (Hprep : prepare E image_path
                  = downscale {| im_mode := ModeRGB; im_size := size; im_filter := im_filter img |}).
  { unfold prepare. rewrite Hopen. simpl. unfold convert. now rewrite Hload. }
  rewrite Hprep. unfold downscale, max_size. simpl im_size. split.
  - intros Hle. apply Z.ltb_ge in Hle. now rewrite Hle.
  - intros Hgt w h Hw Hh. split; [|split; [reflexivity|]].
    + intros Hw1 Hh1. apply Z.ltb_lt in Hgt. rewrite Hgt.
      unfold new_size. rewrite Hw, Hh. simpl. unfold resize. simpl.
      apply Z.leb_le in Hw1, Hh1. now rewrite Hw1, Hh1.
    + destruct (int_near_round _ _ Hw) as (rw & Erw & Brw).
      destruct (int_near_round _ _ Hh) as (rh & Erh & Brh).
      exists rw, rh. unfold spec_new_size. now rewrite Erw, Erh.
Qed.

Lemma prepare_truncates_witness :
  prepare sample_env (py "page.png")
  = Ok ({| im_mode := ModeRGB; im_size := (1536, 768)%Z; im_filter := Some LANCZOS |},
        Some (1536, 768)%Z).
Proof.
  destruct (prepare_truncates sample_env (py "page.png") sample_image eq_refl eq_refl)
    as [_ H].
  destruct (H ltac:(vm_compute; reflexivity) 1536%Z 768%Z
              ltac:(vm_compute; reflexivity) ltac:(vm_compute; reflexivity)) as [H1 _].
  apply H1; lia.
Defined.

(** Scenario 1 of the specification and a boundary case: a 3000x2000
    image is resized to 1536x1024, and a 2073x2073 image to 1535x1535,
    because 2073 * (1536 / 2073) evaluates in binary64 to a value just
    below 1536, which [int] truncates. *)
Theorem downscale_scenarios :
  downscale {| im_mode := ModeRGB; im_size := (3000, 2000)%Z; im_filter := None |}
  = Ok ({| im_mode := ModeRGB; im_size := (1536, 1024)%Z; im_filter := Some LANCZOS |},
        Some (1536, 1024)%Z)
  /\ downscale {| im_mode := ModeRGB; im_size := (2073, 2073)%Z; im_filter := None |}
     = Ok ({| im_mode := ModeRGB; im_size := (1535, 1535)%Z; im_filter := Some LANCZOS |},
           Some (1535, 1535)%Z).
Proof. split; vm_compute; reflexivity. Qed.

(** ** Worker traces *)

Module OCRWorkerFacts.
Import OCRWorker.

Section Traces.

Variable E : Env.

Lemma logs_then_weaken (P Q : list signal -> Prop) tr :
  (forall tl, P tl -> Q tl) -> logs_then P tr -> logs_then Q tr.
Proof. intros HPQ; induction 1; [apply logs_done; auto|apply logs_more; auto]. Qed.

Lemma logs_then_app (P : list signal -> Prop) pre tr :
  Forall (fun s => is_log s = true) pre -> logs_then P tr -> logs_then P (pre ++ tr).
Proof.
  induction 1 as [|s pre Hs _ IH]; intros Ht; simpl; [exact Ht|].
  destruct s; [|discriminate]. apply logs_more; auto.
Qed.

Lemma logs_then_split (P : list signal -> Prop) tr :
  logs_then P tr ->
  exists pre tl, tr = pre ++ tl /\ Forall (fun s => is_log s = true) pre /\ P tl.
Proof.
  induction 1 as [tr H|m tr _ (pre & tl & -> & Hpre & Htl)].
  - exists [], tr; auto.
  - exists (log m :: pre), tl. repeat split; auto.
Qed.

Lemma quiet_ret {A} (a : A) : quiet (mret a).
Proof. constructor. Qed.

Lemma quiet_call {A} (r : result A) : quiet (call r).
Proof. constructor. Qed.

Lemma quiet_emit_log m : quiet (emit (log m)).
Proof. repeat constructor. Qed.

Lemma body_ok_bind {A} (m : W A) (k : A -> W unit) :
  quiet m -> (forall a, body_ok (k a)) -> body_ok (m ≫= k).
Proof.
  destruct m as [tr [a|e]]; unfold quiet, mbind, W_bind; simpl; intros Hq Hk.
  - specialize (Hk a). destruct (k a) as [tr' [[]|e]]; simpl in *.
    + now apply logs_then_app.
    + apply Forall_app; auto.
  - exact Hq.
Qed.

Lemma body_ok_final r : body_ok (emit (finished r);; emit (log done_msg)).
Proof. apply logs_done. now exists r. Qed.

Ltac quiet_tac :=
  first [ apply quiet_emit_log | apply quiet_call | apply quiet_ret
        | match goal with
          | |- quiet (match ?o with _ => _ end) => destruct o; quiet_tac
          end ].

Ltac body_step :=
  cbv zeta;
  first [ apply body_ok_final
        | apply body_ok_bind; [quiet_tac | first [intros [? ?] | intros ?]] ].

(** With a processor and a model the body logs, then raises or ends
    with [finished] and the closing log line. *)
Lemma run_body_loaded self p m :
  processor self = Some p -> model self = Some m -> body_ok (run_body E self).
Proof.
  intros Hp Hm. unfold run_body. rewrite Hp, Hm.
  repeat body_step.
Qed.

(** Without one of them it emits the two lines 41-42 and returns. *)
Lemma run_body_missing self :
  processor self = None \/ model self = None ->
  run_body E self = ([log missing_model_log; finished missing_model_result], Ok tt).
Proof.
  unfold run_body. intros [H|H]; rewrite H; [reflexivity|].
  now destruct (processor self).
Qed.

Lemma handler_trace e :
  exists m r, handler E e = ([log m; finished r], Ok tt).
Proof. destruct e; eexists; eexists; reflexivity. Qed.

(** Every invocation: log signals, then [finished], then at most the
    closing log line. *)
Lemma run_trace self : logs_then terminal_tail (signals E self).
Proof.
  unfold signals, run, try_except.
  destruct (processor self) as [p|] eqn:Hp; [destruct (model self) as [m|] eqn:Hm|].
  - pose proof (run_body_loaded self p m Hp Hm) as H. unfold body_ok in H.
    destruct (run_body E self) as [tr [[]|e]]; simpl.
    + eapply logs_then_weaken; [|exact H]. intros tl [r ->]. exists r; auto.
    + destruct (handler_trace e) as (m' & r & ->); simpl.
      apply logs_then_app; [exact H|].
      apply logs_more, logs_done. exists r; auto.
  - rewrite run_body_missing by auto. simpl.
    apply logs_more, logs_done. eexists; eauto.
  - rewrite run_body_missing by auto. simpl.
    apply logs_more, logs_done. eexists; eauto.
Qed.

Lemma count_finished_logs pre tl :
  Forall (fun s => is_log s = true) pre ->
  count_finished (pre ++ tl) = count_finished tl.
Proof.
  unfold count_finished. induction 1 as [|s pre Hs _ IH]; simpl; [reflexivity|].
  destruct s; [|discriminate]. rewrite filter_cons_False; [exact IH|]. simpl; congruence.
Qed.

Lemma finished_payload_logs pre tl :
  Forall (fun s => is_log s = true) pre ->
  finished_payload (pre ++ tl) = finished_payload tl.
Proof.
  induction 1 as [|s pre Hs _ IH]; simpl; [reflexivity|].
  destruct s; [exact IH|discriminate].
Qed.

(** The payload after an exception: the out-of-memory message, or the
    empty string for any other exception. *)
Lemma raise_payload self tr e :
  run_body E self = (tr, Raise e) ->
  finished_payload (signals E self)
  = Some (match e with OutOfMemoryError _ => out_of_memory_msg | Exception _ => [] end).
Proof.
  intros Hb. unfold signals, run, try_except.
  destruct (processor self) as [p|] eqn:Hp; [destruct (model self) as [m|] eqn:Hm|].
  - pose proof (run_body_loaded self p m Hp Hm) as H. unfold body_ok in H.
    rewrite Hb in *. destruct e; simpl; now rewrite finished_payload_logs.
  - rewrite run_body_missing in Hb by auto. discriminate.
  - rewrite run_body_missing in Hb by auto. discriminate.
Qed.

End Traces.

Example sample_run :
  signals sample_env sample_worker =
    [ log (py "Открытие изображения...");
      log (py "Изображение уменьшено до (1536, 768)");
      log (py "Подготовка входных данных...");
      log (py "Input: torch.Size([1, 3]), Pixels: torch.Size([4, 1176])");
      log (py "Начало генерации...");
      log (py "Генерация завершена за 2.5 сек");
      finished (py "# Invoice 42");
      log (py "Готово!") ].
Proof. vm_compute. reflexivity. Qed.

(** C1. Every invocation of [run] emits exactly one [finished] signal,
    whatever the external calls return or raise (a missing processor or
    model, a failure to open or decode the image, device memory
    exhaustion, any other exception, success). *)
Theorem exactly_one_finished (E : Env) (self : OCRWorker.t) :
  count_finished (signals E self) = 1.
Proof.
  destruct (logs_then_split _ _ (run_trace E self))
    as (pre & tl & -> & Hpre & r & [-> | ->]);
    now rewrite count_finished_logs.
Qed.

(** C2 (as stated, refuted). On the success path the worker emits the
    log line "Готово!" after [finished]: in the sample run the terminal
    signal is not the last one. *)
Lemma log_after_finished :
  finished_is_last (signals sample_env sample_worker) = false.
Proof. vm_compute. reflexivity. Qed.

(** The shape of every trace: log signals, [finished], and on the success
    path the closing log line. *)
Lemma signals_shape (E : Env) (self : OCRWorker.t) :
  exists pre r,
    Forall (fun s => is_log s = true) pre /\
    signals E self
    = pre ++ finished r ::
        match (run_body E self).2, processor self, model self with
        | Ok _, Some _, Some _ => [log done_msg]
        | _, _, _ => []
        end.
Proof.
  unfold signals, run, try_except.
  destruct (processor self) as [p|] eqn:Hp; [destruct (model self) as [m|] eqn:Hm|].
  - pose proof (run_body_loaded E self p m Hp Hm) as H. unfold body_ok in H.
    destruct (run_body E self) as [tr [[]|e]]; simpl.
    + destruct (logs_then_split _ _ H) as (pre & tl & -> & Hpre & r & ->).
      now exists pre, r.
    + destruct (handler_trace E e) as (m' & r & ->); simpl.
      exists (tr ++ [log m']), r. split.
      * apply Forall_app; split; [exact H|repeat constructor].
      * now rewrite <- app_assoc.
  - rewrite run_body_missing by auto. simpl.
    exists [log missing_model_log], missing_model_result. split; [repeat constructor|reflexivity].
  - rewrite run_body_missing by auto. simpl.
    exists [log missing_model_log], missing_model_result. split; [repeat constructor|reflexivity].
Qed.

(** C4 (as stated, refuted). A worker without processor and model does
    not emit the empty string: its terminal payload is the message
    "Ошибка: внутренняя ошибка приложения.". *)
Lemma missing_model_result_not_empty :
  ~ exists m, signals sample_env bare_worker = [log m; finished []].
Proof. intros [m H]. vm_compute in H. discriminate. Qed.

(** C4 (amended). When the processor or the model is absent, [run] makes
    no external call and emits exactly two signals: the diagnostic log
    line "ОШИБКА: Модель не передана в рабочий поток!" and then, as its
    single terminal emission, [finished] with the non-empty message
    "Ошибка: внутренняя ошибка приложения.". *)
Theorem missing_model_trace (E : Env) (self : OCRWorker.t) :
  processor self = None \/ model self = None ->
  signals E self = [log missing_model_log; finished missing_model_result]
  /\ missing_model_result <> []
  /\ count_finished (signals E self) = 1.
Proof.
  intros H. unfold signals, run, try_except.
  rewrite run_body_missing by exact H. simpl.
  split; [reflexivity|]. split; [discriminate|reflexivity].
Qed.

Lemma missing_model_trace_witness :
  signals sample_env bare_worker = [log missing_model_log; finished missing_model_result]
  /\ missing_model_result <> []
  /\ count_finished (signals sample_env bare_worker) = 1.
Proof. apply (missing_model_trace sample_env bare_worker). left. reflexivity. Defined.

End OCRWorkerFacts.

(** ** The supervisor *)

Module MainWindowFacts.
Import OCRWorker OCRWorkerFacts MainWindow.

Section Display.

Variable E : Env.

Lemma display_result_appends self result :
  text_log_file (display_result E result self)
  = text_log_file self ++ text_log_entry (now E self) result.
Proof. reflexivity. Qed.

Lemma log_keeps_text_log_file message self :
  text_log_file (MainWindow.log E message self) = text_log_file self.
Proof. reflexivity. Qed.

Lemma deliver_app tr1 tr2 self :
  deliver E (tr1 ++ tr2) self = deliver E tr2 (deliver E tr1 self).
Proof. apply foldl_app. Qed.

Lemma deliver_logs pre self :
  Forall (fun s => is_log s = true) pre ->
  text_log_file (deliver E pre self) = text_log_file self.
Proof.
  intros H; revert self. induction H as [|s pre Hs _ IH]; intros self; [reflexivity|].
  destruct s; [|discriminate]. simpl. now rewrite IH.
Qed.

Lemma deliver_cons s tr self :
  deliver E (s :: tr) self = deliver E tr (on_signal E s self).
Proof. reflexivity. Qed.

Lemma deliver_nil self : deliver E [] self = self.
Proof. reflexivity. Qed.

(** Delivering the signals of one invocation appends one entry, with the
    payload of its [finished] signal. *)
Lemma deliver_run self w :
  exists st result,
    finished_payload (signals E w) = Some result
    /\ text_log_file (deliver E (signals E w) self)
       = text_log_file self ++ text_log_entry (now E st) result.
Proof.
  destruct (logs_then_split _ _ (run_trace E w))
    as (pre & tl & -> & Hpre & r & [-> | ->]);
    exists (deliver E pre self), r;
    rewrite finished_payload_logs, deliver_app by exact Hpre;
    (split; [reflexivity|]);
    rewrite !deliver_cons, deliver_nil; cbn [on_signal];
    rewrite ?log_keeps_text_log_file, display_result_appends;
    now rewrite deliver_logs.
Qed.

End Display.

(** C2 (amended). The signals of an invocation are, in emission order,
    log signals followed by the single [finished]; [finished] is the last
    signal on every error path (missing processor or model, any
    exception), and on the success path it is followed by exactly one
    more signal, the log line "Готово!".  They reach the window in that
    order: [display_result] runs after every earlier log line has been
    written, and on the success path "Готово!" is logged after it. *)
Theorem finished_then_at_most_done (E : Env) (self : OCRWorker.t) :
  exists pre r post,
    Forall (fun s => is_log s = true) pre
    /\ signals E self = pre ++ finished r :: post
    /\ post = match (run_body E self).2, OCRWorker.processor self, OCRWorker.model self with
              | Ok _, Some _, Some _ => [OCRWorker.log done_msg]
              | _, _, _ => []
              end
    /\ forall st,
         deliver E (signals E self) st
         = deliver E post (display_result E r (deliver E pre st)).
Proof.
  destruct (signals_shape E self) as (pre & r & Hpre & Hs).
  exists pre, r. eexists. split; [exact Hpre|]. split; [exact Hs|]. split; [reflexivity|].
  intros st. rewrite Hs, deliver_app. reflexivity.
Qed.

(** C10. [display_result] appends every payload it is given to text.log
    as an entry of its own: the time in brackets and "Распознан текст:",
    the payload on the next line, then a line of fifty dashes.  It is the
    slot of [finished], so the payload of every invocation of the worker
    is appended: the sanitized text, and equally the empty string after
    an unclassified exception and the out-of-memory message.  The text
    log is not limited to recognized text. *)
Theorem every_result_is_logged (E : Env) :
  (forall self result,
      text_log_file (display_result E result self)
      = text_log_file self
        ++ py "[" ++ now E self ++ py "] Распознан текст:" ++ newline
        ++ result ++ newline
        ++ py "--------------------------------------------------" ++ newline)
  /\ (forall self result,
        on_signal E (finished result) self = display_result E result self)
  /\ (forall self w, exists st result,
        finished_payload (signals E w) = Some result
        /\ text_log_file (deliver E (signals E w) self)
           = text_log_file self
             ++ py "[" ++ now E st ++ py "] Распознан текст:" ++ newline
             ++ result ++ newline
             ++ py "--------------------------------------------------" ++ newline)
  /\ (forall self w tr msg,
        run_body E w = (tr, Raise (OutOfMemoryError msg)) ->
        exists st,
          text_log_file (deliver E (signals E w) self)
          = text_log_file self
            ++ py "[" ++ now E st ++ py "] Распознан текст:" ++ newline
            ++ py "ОШИБКА: Недостаточно видеопамяти!" ++ newline
            ++ py "--------------------------------------------------" ++ newline)
  /\ (forall self w tr msg,
        run_body E w = (tr, Raise (Exception msg)) ->
        exists st,
          text_log_file (deliver E (signals E w) self)
          = text_log_file self
            ++ py "[" ++ now E st ++ py "] Распознан текст:" ++ newline
            ++ newline
            ++ py "--------------------------------------------------" ++ newline)
  /\ (forall time result,
        text_log_entry time result
        = py "[" ++ time ++ py "] Распознан текст:" ++ newline
          ++ result ++ newline
          ++ py "--------------------------------------------------" ++ newline).
Proof.
  assert (Hentry : forall time result,
    text_log_entry time result
    = py "[" ++ time ++ py "] Распознан текст:" ++ newline
      ++ result ++ newline
      ++ py "--------------------------------------------------" ++ newline).
  { intros time result. unfold text_log_entry. reflexivity. }
  assert (Hraise : forall self w tr e,
    run_body E w = (tr, Raise e) ->
    exists st,
      text_log_file (deliver E (signals E w) self)
      = text_log_file self
        ++ text_log_entry (now E st)
             (match e with OutOfMemoryError _ => out_of_memory_msg | Exception _ => [] end)).
  { intros self w tr e Hb.
    destruct (deliver_run E self w) as (st & result & Hpay & Hfile).
    rewrite (raise_payload E w tr e Hb) in Hpay. injection Hpay as <-.
    now exists st. }
  split; [intros self result; rewrite display_result_appends; now rewrite Hentry|].
  split; [reflexivity|]. split; [|split; [|split; [|exact Hentry]]].
  - intros self w. destruct (deliver_run E self w) as (st & result & Hpay & Hfile).
    exists st, result. split; [exact Hpay|]. now rewrite Hfile, Hentry.
  - intros self w tr msg Hb. destruct (Hraise self w tr _ Hb) as (st & Hfile).
    exists st. rewrite Hfile, Hentry. unfold out_of_memory_msg. reflexivity.
  - intros self w tr msg Hb. destruct (Hraise self w tr _ Hb) as (st & Hfile).
    exists st. rewrite Hfile, Hentry. now rewrite app_nil_l.
Qed.

(** An out-of-memory failure of [generate] puts the out-of-memory
    message into text.log, as the payload of a new entry. *)
Lemma every_result_is_logged_witness :
  exists st,
    text_log_file
      (deliver (failing_env (OutOfMemoryError (py "CUDA out of memory")))
         (signals (failing_env (OutOfMemoryError (py "CUDA out of memory"))) sample_worker)
         busy_window)
    = text_log_file busy_window
      ++ py "[" ++ now (failing_env (OutOfMemoryError (py "CUDA out of memory"))) st
      ++ py "] Распознан текст:" ++ newline
      ++ py "ОШИБКА: Недостаточно видеопамяти!" ++ newline
      ++ py "--------------------------------------------------" ++ newline.
Proof.
  apply (proj1 (proj2 (proj2 (proj2
           (every_result_is_logged (failing_env (OutOfMemoryError (py "CUDA out of memory")))))))
           busy_window sample_worker
           (run_body (failing_env (OutOfMemoryError (py "CUDA out of memory")))
              sample_worker).1
           (py "CUDA out of memory")).
  vm_compute. reflexivity.
Defined.

Section Supervisor.

Variable E : Env.

Implicit Types self : MainWindow.t.

Lemma load_count_perform e self :
  load_count (perform e self) = load_count self + (if is_load e then 1 else 0).
Proof.
  unfold load_count, perform; simpl. rewrite filter_app, length_app.
  destruct e; reflexivity.
Qed.

(** [load_model] touches neither the threads nor the worker, and none of
    its effects is a thread operation. *)
Lemma load_model_frame path self :
  thread (load_model E path self).2 = thread self
  /\ threads (load_model E path self).2 = threads self
  /\ worker (load_model E path self).2 = worker self
  /\ text_prompt (load_model E path self).2 = text_prompt self
  /\ exists pre, effects (load_model E path self).2 = effects self ++ pre
                 /\ Forall (fun e => is_thread_op e = false) pre.
Proof.
  unfold load_model, empty_cache_if_available.
  repeat case_match; simpl; repeat split;
    rewrite <- ?app_assoc; eexists; (split; [reflexivity|repeat constructor]).
Qed.

(** After [stop_previous] no thread is running, provided only the
    current one could be. *)
Lemma stop_previous_quiesces self th :
  only_current_runs self -> is_running (stop_previous self) th = false.
Proof.
  intros Inv. unfold stop_previous.
  destruct (thread self) as [th0|] eqn:Ht.
  - destruct (is_running self th0) eqn:Hr.
    + unfold is_running; simpl. destruct (decide (th0 = th)) as [->|Hne].
      * rewrite lookup_alter_eq. now destruct (threads self !! th).
      * rewrite lookup_alter_ne by exact Hne.
        destruct (is_running self th) eqn:Hr'; [|exact Hr'].
        apply Inv in Hr'. congruence.
    + destruct (is_running self th) eqn:Hr'; [|reflexivity].
      apply Inv in Hr' as Ht'. congruence.
  - destruct (is_running self th) eqn:Hr'; [|reflexivity].
    apply Inv in Hr'. congruence.
Qed.

Lemma only_current_runs_ext self st :
  threads st = threads self -> thread st = thread self ->
  only_current_runs self -> only_current_runs st.
Proof.
  unfold only_current_runs, is_running. intros -> ->. auto.
Qed.

Lemma dispatch_invariant image_path self :
  only_current_runs self -> only_current_runs (dispatch E image_path self).
Proof.
  intros Inv. unfold dispatch. cbv zeta.
  set (s2 := empty_cache_if_available E (set_text_output [] self)).
  assert (Inv2 : only_current_runs s2).
  { apply (only_current_runs_ext self); [| |exact Inv];
      unfold s2, empty_cache_if_available; now destruct (cuda_is_available E). }
  pose proof (fun th => stop_previous_quiesces s2 th Inv2) as Hq.
  destruct (strip (text_prompt (stop_previous s2))) as [|c prompt_text].
  - intros th Hr. change (is_running (stop_previous s2) th = true) in Hr.
    rewrite Hq in Hr. discriminate.
  - intros th Hr. unfold is_running in Hr; simpl in Hr.
    destruct (decide (fresh (dom (threads (stop_previous s2))) = th)) as [->|Hne]; [reflexivity|].
    rewrite lookup_insert_ne in Hr by exact Hne.
    specialize (Hq th). unfold is_running in Hq. congruence.
Qed.

Lemma start_ocr_invariant self :
  only_current_runs self -> only_current_runs (start_ocr E self).
Proof.
  intros Inv. unfold start_ocr.
  destruct (image_path self) as [[|c ip]|];
    [exact Inv| |exact Inv].
  destruct (current_model_path self) as [[|c' mp]|];
    [exact Inv| |exact Inv].
  destruct (handle_missing self); [|now apply dispatch_invariant].
  destruct (load_model_frame (c' :: mp) (MainWindow.log E (py "🔄 Загрузка модели...") self))
    as (Ht & Hts & _).
  destruct (load_model E (c' :: mp) (MainWindow.log E (py "🔄 Загрузка модели...") self))
    as [[p m] st]; simpl in Ht, Hts.
  assert (Inv' : only_current_runs (set_handle p m st)).
  { apply (only_current_runs_ext self); [exact Hts|exact Ht|exact Inv]. }
  destruct (handle_missing (set_handle p m st)); [exact Inv'|].
  now apply dispatch_invariant.
Qed.

Lemma step_invariant self ev :
  only_current_runs self -> only_current_runs (step E self ev).
Proof.
  intros Inv. destruct ev as [|path|data|index|text| |s]; simpl.
  - now apply start_ocr_invariant.
  - unfold choose_image. destruct path; [exact Inv|]. exact Inv.
  - unfold on_model_changed. destruct data as [[|c mp]|]; exact Inv.
  - unfold on_template_selected. destruct (0 <? index)%Z; exact Inv.
  - exact Inv.
  - unfold copy_result_to_clipboard. destruct (strip (text_output self)); exact Inv.
  - destruct s; exact Inv.
Qed.

Lemma run_events_invariant self evs :
  only_current_runs self -> only_current_runs (run_events E self evs).
Proof.
  revert self. induction evs as [|ev evs IH]; intros self Inv; [exact Inv|].
  apply IH, step_invariant, Inv.
Qed.

Lemma no_threads_invariant self : no_threads self -> only_current_runs self.
Proof.
  intros [_ Hts] th. unfold is_running. rewrite Hts, lookup_empty. discriminate.
Qed.

Lemma load_count_ext self st :
  effects st = effects self -> load_count st = load_count self.
Proof. unfold load_count. now intros ->. Qed.

(** [dispatch] keeps the handle, loads nothing, and a worker it creates
    is given the window's processor and model. *)
Lemma dispatch_handle image_path self :
  processor (dispatch E image_path self) = processor self
  /\ model (dispatch E image_path self) = model self
  /\ load_count (dispatch E image_path self) = load_count self
  /\ (worker (dispatch E image_path self) = worker self
      \/ exists w, worker (dispatch E image_path self) = Some w
                   /\ OCRWorker.processor w = processor self
                   /\ OCRWorker.model w = model self).
Proof.
  unfold dispatch, stop_previous, empty_cache_if_available, load_count.
  repeat case_match; simpl;
    (split; [reflexivity|]); (split; [reflexivity|]);
    (split; [rewrite ?filter_app, ?length_app; simpl; lia|]);
    first [left; reflexivity | right; eexists; repeat split; reflexivity].
Qed.

Lemma step_handle self ev p m :
  processor self = Some p -> model self = Some m ->
  processor (step E self ev) = Some p
  /\ model (step E self ev) = Some m
  /\ load_count (step E self ev) = load_count self
  /\ (worker (step E self ev) = worker self
      \/ exists w, worker (step E self ev) = Some w
                   /\ OCRWorker.processor w = Some p /\ OCRWorker.model w = Some m).
Proof.
  intros Hp Hm.
  assert (Hbox : forall d,
    processor (perform (message_box d) self) = Some p
    /\ model (perform (message_box d) self) = Some m
    /\ load_count (perform (message_box d) self) = load_count self
    /\ (worker (perform (message_box d) self) = worker self
        \/ exists w, worker (perform (message_box d) self) = Some w
                     /\ OCRWorker.processor w = Some p /\ OCRWorker.model w = Some m)).
  { intros d. rewrite load_count_perform. simpl.
    split; [exact Hp|]. split; [exact Hm|]. split; [lia|]. now left. }
  assert (Hsame : forall st,
    processor st = processor self -> model st = model self ->
    effects st = effects self -> worker st = worker self ->
    processor st = Some p /\ model st = Some m /\ load_count st = load_count self
    /\ (worker st = worker self
        \/ exists w, worker st = Some w
                     /\ OCRWorker.processor w = Some p /\ OCRWorker.model w = Some m)).
  { intros st Ep Em Ee Ew. split; [congruence|]. split; [congruence|].
    split; [now apply load_count_ext|]. now left. }
  destruct ev as [|path|data|index|text| |s]; cbn [step].
  - unfold start_ocr, handle_missing. rewrite Hp, Hm.
    destruct (image_path self) as [[|c ip]|]; [apply Hbox| |apply Hbox].
    destruct (current_model_path self) as [[|c' mp]|]; [apply Hbox| |apply Hbox].
    destruct (dispatch_handle (c :: ip) self) as (Ep & Em & El & Hw).
    rewrite Ep, Em, El. split; [exact Hp|]. split; [exact Hm|]. split; [reflexivity|].
    rewrite <- Hp, <- Hm. exact Hw.
  - unfold choose_image. destruct path; now apply Hsame.
  - unfold on_model_changed. destruct data as [[|c mp]|]; now apply Hsame.
  - unfold on_template_selected. destruct (0 <? index)%Z; now apply Hsame.
  - now apply Hsame.
  - unfold copy_result_to_clipboard. destruct (strip (text_output self)); now apply Hsame.
  - destruct s; now apply Hsame.
Qed.

Lemma run_events_handle self evs p m :
  processor self = Some p -> model self = Some m ->
  processor (run_events E self evs) = Some p
  /\ model (run_events E self evs) = Some m
  /\ load_count (run_events E self evs) = load_count self
  /\ (worker (run_events E self evs) = worker self
      \/ exists w, worker (run_events E self evs) = Some w
                   /\ OCRWorker.processor w = Some p /\ OCRWorker.model w = Some m).
Proof.
  revert self. induction evs as [|ev evs IH]; intros self Hp Hm; [simpl; auto|].
  destruct (step_handle self ev p m Hp Hm) as (Hp1 & Hm1 & Hl1 & Hw1).
  destruct (IH (step E self ev) Hp1 Hm1) as (Hp2 & Hm2 & Hl2 & Hw2).
  change (run_events E self (ev :: evs)) with (run_events E (step E self ev) evs).
  repeat split; [exact Hp2|exact Hm2|congruence|].
  destruct Hw2 as [Hw2|Hw2]; [|right; exact Hw2].
  rewrite Hw2. exact Hw1.
Qed.

(** With a running previous thread, [dispatch] either creates nothing
    (blank prompt) or quits and waits for that thread and only then
    starts a new one. *)
Lemma dispatch_order image_path self th :
  thread self = Some th -> is_running self th = true ->
  (thread (dispatch E image_path self) = Some th
   /\ worker (dispatch E image_path self) = worker self
   /\ dom (threads (dispatch E image_path self)) = dom (threads self))
  \/ exists pre th',
       effects (dispatch E image_path self)
       = effects self ++ pre ++ [thread_quit th; thread_wait th; thread_start th']
       /\ Forall (fun e => is_thread_op e = false) pre
       /\ th' <> th
       /\ thread (dispatch E image_path self) = Some th'
       /\ is_running (dispatch E image_path self) th = false
       /\ is_running (dispatch E image_path self) th' = true.
Proof.
  intros Ht Hr. unfold dispatch. cbv zeta.
  set (s2 := empty_cache_if_available E (set_text_output [] self)).
  assert (H2 : thread s2 = Some th /\ threads s2 = threads self /\ worker s2 = worker self
               /\ exists pre, effects s2 = effects self ++ pre
                              /\ Forall (fun e => is_thread_op e = false) pre).
  { unfold s2, empty_cache_if_available. destruct (cuda_is_available E); simpl.
    - repeat split; auto. exists [empty_cache]. split; [reflexivity|repeat constructor].
    - repeat split; auto. exists []. split; [now rewrite app_nil_r|constructor]. }
  destruct H2 as (Ht2 & Hts2 & Hw2 & pre & He2 & Hpre).
  assert (Hr2 : is_running s2 th = true) by (unfold is_running; now rewrite Hts2).
  assert (Es3 : stop_previous s2
                = set_threads (alter (fun q => {| running := false; moved := moved q |}) th
                                     (threads s2))
                    (perform (thread_wait th) (perform (thread_quit th) s2))).
  { unfold stop_previous. now rewrite Ht2, Hr2. }
  rewrite Es3. clearbody s2.
  assert (Hin : th ∈ dom (threads self)).
  { unfold is_running in Hr. destruct (threads self !! th) eqn:El; [|discriminate].
    eapply elem_of_dom_2, El. }
  destruct (strip _) as [|c prompt_text]; simpl.
  - left. repeat split; auto. rewrite Hts2. apply leibniz_equiv, dom_alter.
  - right. exists pre.
    set (ts := alter (fun q => {| running := false; moved := moved q |}) th (threads s2)).
    exists (fresh (dom ts)).
    assert (Hdom : dom ts = dom (threads self)).
    { unfold ts. rewrite Hts2. apply leibniz_equiv, dom_alter. }
    assert (Hne : fresh (dom ts) <> th).
    { intros Heq. apply (is_fresh (dom ts)). rewrite Heq, Hdom. exact Hin. }
    repeat split; auto.
    + rewrite He2, <- !app_assoc. reflexivity.
    + unfold is_running; simpl. rewrite lookup_insert_ne by exact Hne.
      unfold ts. rewrite lookup_alter_eq. now destruct (threads s2 !! th).
    + unfold is_running; simpl. now rewrite lookup_insert_eq.
Qed.

Lemma start_ocr_order self th :
  thread self = Some th -> is_running self th = true ->
  (thread (start_ocr E self) = Some th
   /\ worker (start_ocr E self) = worker self
   /\ dom (threads (start_ocr E self)) = dom (threads self))
  \/ exists pre th',
       effects (start_ocr E self)
       = effects self ++ pre ++ [thread_quit th; thread_wait th; thread_start th']
       /\ Forall (fun e => is_thread_op e = false) pre
       /\ th' <> th
       /\ thread (start_ocr E self) = Some th'
       /\ is_running (start_ocr E self) th = false
       /\ is_running (start_ocr E self) th' = true.
Proof.
  intros Ht Hr. unfold start_ocr.
  destruct (image_path self) as [[|c ip]|]; [left; auto| |left; auto].
  destruct (current_model_path self) as [[|c' mp]|]; [left; auto| |left; auto].
  destruct (handle_missing self); [|now apply dispatch_order].
  set (s1 := MainWindow.log E (py "🔄 Загрузка модели...") self).
  destruct (load_model_frame (c' :: mp) s1) as (Ht1 & Hts1 & Hw1 & _ & pre1 & He1 & Hpre1).
  destruct (load_model E (c' :: mp) s1) as [[p m] st]; simpl in Ht1, Hts1, Hw1, He1.
  destruct (handle_missing (set_handle p m st)); [left; simpl; rewrite Ht1, Hts1, Hw1; auto|].
  destruct (dispatch_order (c :: ip) (set_handle p m st) th) as [H|H].
  - simpl. now rewrite Ht1.
  - unfold is_running in *. simpl. now rewrite Hts1.
  - left. destruct H as (A & B & C).
    split; [exact A|]. split; [rewrite B; exact Hw1|].
    rewrite C. simpl. now rewrite Hts1.
  - right. destruct H as (pre & th' & He & Hpre & Hne & Hth & Hq & Hs).
    exists (pre1 ++ pre), th'. repeat split; auto.
    + rewrite He. simpl. rewrite He1. simpl. now rewrite <- !app_assoc.
    + apply Forall_app; auto.
Qed.

Lemma start_ocr_keeps_selection self p m :
  processor self = Some p -> model self = Some m ->
  current_model_path (start_ocr E self) = current_model_path self.
Proof.
  intros Hp Hm. unfold start_ocr, handle_missing. rewrite Hp, Hm.
  unfold dispatch, stop_previous, empty_cache_if_available.
  repeat case_match; simpl; congruence.
Qed.

(** Lines 395-402 leave the prompt, the processor and the model alone
    and create no thread. *)
Lemma before_prompt_check s :
  let s3 := stop_previous (empty_cache_if_available E (set_text_output [] s)) in
  text_prompt s3 = text_prompt s /\ processor s3 = processor s /\ model s3 = model s
  /\ dom (threads s3) = dom (threads s).
Proof.
  unfold stop_previous, empty_cache_if_available.
  repeat case_match; simpl; repeat split; apply leibniz_equiv, dom_alter.
Qed.

(** With a prompt that is not blank, [dispatch] creates a worker that
    carries the image, the stripped prompt and the window's processor and
    model, and starts a new thread for it. *)
Lemma dispatch_creates_worker image_path s :
  strip (text_prompt s) <> [] ->
  exists th,
    (th ∉ dom (threads s))
    /\ worker (dispatch E image_path s)
       = Some {| OCRWorker.image_path := image_path;
                 OCRWorker.prompt_text := strip (text_prompt s);
                 OCRWorker.processor := processor s;
                 OCRWorker.model := model s |}
    /\ thread (dispatch E image_path s) = Some th
    /\ threads (dispatch E image_path s) !! th
       = Some {| running := true;
                 moved := Some {| OCRWorker.image_path := image_path;
                                  OCRWorker.prompt_text := strip (text_prompt s);
                                  OCRWorker.processor := processor s;
                                  OCRWorker.model := model s |} |}
    /\ last (effects (dispatch E image_path s)) = Some (thread_start th).
Proof.
  intros Hne.
  destruct (before_prompt_check s) as (Hp & Hpr & Hm & Hd).
  unfold dispatch. cbv zeta.
  set (s3 := stop_previous (empty_cache_if_available E (set_text_output [] s))) in *.
  clearbody s3. rewrite Hp.
  destruct (strip (text_prompt s)) as [|c prompt_text]; [contradiction|].
  exists (fresh (dom (threads s3))). rewrite <- Hpr, <- Hm.
  split; [rewrite <- Hd; apply is_fresh|]. split; [reflexivity|].
  split; [reflexivity|]. split; [apply lookup_insert_eq|]. apply last_snoc.
Qed.

Lemma start_ocr_creates_worker self p m c ip c' mp :
  processor self = Some p -> model self = Some m ->
  image_path self = Some (c :: ip) -> current_model_path self = Some (c' :: mp) ->
  strip (text_prompt self) <> [] ->
  exists th,
    (th ∉ dom (threads self))
    /\ worker (start_ocr E self)
       = Some {| OCRWorker.image_path := c :: ip;
                 OCRWorker.prompt_text := strip (text_prompt self);
                 OCRWorker.processor := Some p;
                 OCRWorker.model := Some m |}
    /\ thread (start_ocr E self) = Some th
    /\ threads (start_ocr E self) !! th
       = Some {| running := true;
                 moved := Some {| OCRWorker.image_path := c :: ip;
                                  OCRWorker.prompt_text := strip (text_prompt self);
                                  OCRWorker.processor := Some p;
                                  OCRWorker.model := Some m |} |}
    /\ last (effects (start_ocr E self)) = Some (thread_start th).
Proof.
  intros Hp Hm Hip Hmp Hne. unfold start_ocr, handle_missing.
  rewrite Hip, Hmp, Hp, Hm. rewrite <- Hp, <- Hm.
  now apply dispatch_creates_worker.
Qed.

(** Without an image, or without a selected model, [start_ocr] shows its
    message box and does nothing else. *)
Lemma start_ocr_without_image self :
  image_path self = None \/ image_path self = Some [] ->
  start_ocr E self
  = perform (message_box (warning (py "Внимание")
                                  (py "Пожалуйста, выберите изображение."))) self.
Proof. unfold start_ocr. now intros [-> | ->]. Qed.

Lemma start_ocr_without_model self c path :
  image_path self = Some (c :: path) ->
  current_model_path self = None \/ current_model_path self = Some [] ->
  start_ocr E self
  = perform (message_box (critical (py "Ошибка") (py "Модель не выбрана."))) self.
Proof. unfold start_ocr. now intros -> [-> | ->]. Qed.

End Supervisor.

(** C3 (the code at the failing inputs). With image and model selected
    and a blank prompt, [start_ocr] warns and creates no worker, but only
    after it has logged, loaded the model and cleared the result display;
    and when a worker thread is running it has also stopped that thread.
    The two sibling checks (image, model) return before any of this:
    [start_ocr_without_image], [start_ocr_without_model]. *)
Theorem blank_prompt_side_effects :
  (let st := start_ocr sample_env blank_prompt_window in
   worker st = None /\ thread st = None
   /\ effects st
      = [ load_processor (py "model_bnb4/a"); empty_cache;
          load_weights (py "model_bnb4/a"); empty_cache;
          message_box (warning (py "Внимание") (py "Пожалуйста, введите промт.")) ]
   /\ processor blank_prompt_window = None
   /\ processor st = Some {| processor_source := py "model_bnb4/a" |}
   /\ text_output blank_prompt_window = py "previous result"
   /\ text_output st = []
   /\ length (text_log blank_prompt_window) = 0
   /\ length (text_log st) = 3)
  /\ (let st := start_ocr sample_env busy_blank_prompt_window in
      worker st = worker busy_blank_prompt_window
      /\ thread st = Some 0
      /\ is_running busy_blank_prompt_window 0 = true
      /\ is_running st 0 = false
      /\ text_output st = []
      /\ effects st
         = effects busy_blank_prompt_window
           ++ [ empty_cache; thread_quit 0; thread_wait 0;
                message_box (warning (py "Внимание") (py "Пожалуйста, введите промт.")) ]).
Proof. vm_compute. repeat split; reflexivity. Qed.

(** C8. Once a processor and a model are loaded, no sequence of user
    actions and worker signals replaces them or calls [from_pretrained]
    again, and every later dispatch reuses that pair: in the window
    reached, whatever model path is selected by then, a [start_ocr] with
    an image chosen and a prompt that is not blank creates a worker that
    is handed the processor and the model loaded before, and starts its
    thread, without loading anything.  In particular, after the selection
    is changed to another model the next [start_ocr] records the new path
    but still runs on the model loaded before.  (The window is assumed to
    hold no stopped thread, see [stop_previous].) *)
Theorem loaded_handle_is_reused (E : Env) (self : MainWindow.t)
    (p : Processor) (m : Model) (evs : list event) :
  processor self = Some p -> model self = Some m ->
  (processor (run_events E self evs) = Some p
   /\ model (run_events E self evs) = Some m
   /\ load_count (run_events E self evs) = load_count self
   /\ (worker (run_events E self evs) = worker self
       \/ exists w, worker (run_events E self evs) = Some w
                    /\ OCRWorker.processor w = Some p /\ OCRWorker.model w = Some m))
  /\ (forall c path,
        let st := start_ocr E (on_model_changed E (Some (c :: path)) self) in
        current_model_path st = Some (c :: path)
        /\ processor st = Some p /\ model st = Some m
        /\ load_count st = load_count self)
  /\ (forall c ip c' mp,
        image_path (run_events E self evs) = Some (c :: ip) ->
        current_model_path (run_events E self evs) = Some (c' :: mp) ->
        strip (text_prompt (run_events E self evs)) <> [] ->
        thread_alive (run_events E self evs) ->
        exists th,
          (th ∉ dom (threads (run_events E self evs)))
          /\ worker (start_ocr E (run_events E self evs))
             = Some {| OCRWorker.image_path := c :: ip;
                       OCRWorker.prompt_text := strip (text_prompt (run_events E self evs));
                       OCRWorker.processor := Some p;
                       OCRWorker.model := Some m |}
          /\ thread (start_ocr E (run_events E self evs)) = Some th
          /\ threads (start_ocr E (run_events E self evs)) !! th
             = Some {| running := true;
                       moved :=
                         Some {| OCRWorker.image_path := c :: ip;
                                 OCRWorker.prompt_text :=
                                   strip (text_prompt (run_events E self evs));
                                 OCRWorker.processor := Some p;
                                 OCRWorker.model := Some m |} |}
          /\ last (effects (start_ocr E (run_events E self evs))) = Some (thread_start th)
          /\ current_model_path (start_ocr E (run_events E self evs)) = Some (c' :: mp)
          /\ processor (start_ocr E (run_events E self evs)) = Some p
          /\ model (start_ocr E (run_events E self evs)) = Some m
          /\ load_count (start_ocr E (run_events E self evs)) = load_count self).
Proof.
  intros Hp Hm. split; [now apply run_events_handle|]. split.
  - intros c path st.
    destruct (run_events_handle E self [model_changed (Some (c :: path)); run_clicked] p m Hp Hm)
      as (Hp' & Hm' & Hl' & _).
    split; [|auto].
    unfold st. erewrite start_ocr_keeps_selection; [reflexivity|exact Hp|exact Hm].
  - intros c ip c' mp Hip Hmp Hne _.
    destruct (run_events_handle E self evs p m Hp Hm) as (Hp1 & Hm1 & Hl1 & _).
    destruct (start_ocr_creates_worker E (run_events E self evs) p m c ip c' mp
                Hp1 Hm1 Hip Hmp Hne) as (th & Hth & Hw & Ht & Hts & He).
    destruct (step_handle E (run_events E self evs) run_clicked p m Hp1 Hm1)
      as (Hp2 & Hm2 & Hl2 & _). cbn [step] in Hp2, Hm2, Hl2.
    exists th. split; [exact Hth|]. split; [exact Hw|]. split; [exact Ht|].
    split; [exact Hts|]. split; [exact He|].
    split; [rewrite (start_ocr_keeps_selection E _ p m Hp1 Hm1); exact Hmp|].
    split; [exact Hp2|]. split; [exact Hm2|]. congruence.
Qed.

(** The window whose model was loaded from model_bnb4/a, after the
    selection is changed to model_bnb4/b: the next [start_ocr] creates a
    worker on the model from model_bnb4/a. *)
Lemma loaded_handle_is_reused_witness :
  exists th,
    worker (start_ocr sample_env
              (run_events sample_env busy_window [model_changed (Some (py "model_bnb4/b"))]))
    = Some {| OCRWorker.image_path := py "page.png";
              OCRWorker.prompt_text := py "Extract text as plain, unformatted lines.";
              OCRWorker.processor := Some {| processor_source := py "model_bnb4/a" |};
              OCRWorker.model := Some sample_model |}
    /\ thread (start_ocr sample_env
                 (run_events sample_env busy_window
                    [model_changed (Some (py "model_bnb4/b"))])) = Some th
    /\ current_model_path
         (start_ocr sample_env
            (run_events sample_env busy_window [model_changed (Some (py "model_bnb4/b"))]))
       = Some (py "model_bnb4/b").
Proof.
  destruct (loaded_handle_is_reused sample_env busy_window
              {| processor_source := py "model_bnb4/a" |} sample_model
              [model_changed (Some (py "model_bnb4/b"))]
              ltac:(vm_compute; reflexivity) ltac:(vm_compute; reflexivity))
    as (_ & _ & H).
  destruct (H 112%N (py "age.png") 109%N (py "odel_bnb4/b")
              ltac:(vm_compute; reflexivity) ltac:(vm_compute; reflexivity)
              ltac:(vm_compute; discriminate) ltac:(vm_compute; reflexivity))
    as (th & _ & Hw & Ht & _ & _ & Hc & _).
  exists th. split; [|split; [exact Ht|exact Hc]].
  rewrite Hw. vm_compute. reflexivity.
Defined.

Example stale_model_after_selection_change :
  let st := run_events sample_env busy_window
              [model_changed (Some (py "model_bnb4/b")); run_clicked] in
  current_model_path st = Some (py "model_bnb4/b")
  /\ (OCRWorker.model <$> worker st) = Some (Some sample_model)
  /\ model_source sample_model = py "model_bnb4/a"
  /\ thread st = Some 1.
Proof. vm_compute. repeat split; reflexivity. Qed.

(** C9. Starting from a window without threads, after any sequence of
    user actions and worker signals at most one thread is running, and it
    is the one the window holds.  When [start_ocr] is called while the
    previous thread is running it either creates no thread, or it quits
    that thread, waits for it to finish and only then starts the new
    one. *)
Theorem one_worker_at_a_time (E : Env) :
  (forall self evs, no_threads self ->
     only_current_runs (run_events E self evs)
     /\ forall th1 th2,
          is_running (run_events E self evs) th1 = true ->
          is_running (run_events E self evs) th2 = true -> th1 = th2)
  /\ (forall self th,
        thread self = Some th -> is_running self th = true ->
        (thread (start_ocr E self) = Some th
         /\ worker (start_ocr E self) = worker self
         /\ dom (threads (start_ocr E self)) = dom (threads self))
        \/ exists pre th',
             effects (start_ocr E self)
             = effects self ++ pre ++ [thread_quit th; thread_wait th; thread_start th']
             /\ Forall (fun e => is_thread_op e = false) pre
             /\ th' <> th
             /\ thread (start_ocr E self) = Some th'
             /\ is_running (start_ocr E self) th = false
             /\ is_running (start_ocr E self) th' = true).
Proof.
  split.
  - intros self evs H0.
    assert (Inv : only_current_runs (run_events E self evs))
      by now apply run_events_invariant, no_threads_invariant.
    split; [exact Inv|].
    intros th1 th2 H1 H2. apply Inv in H1, H2. congruence.
  - intros self th. apply start_ocr_order.
Qed.

(** Two requests in a row from a fresh window: thread 0 is stopped before
    thread 1 is started, and only thread 1 runs afterwards. *)
Lemma one_worker_at_a_time_witness :
  only_current_runs
    (run_events sample_env ready_window [run_clicked; run_clicked]).
Proof.
  apply (proj1 (one_worker_at_a_time sample_env) ready_window [run_clicked; run_clicked]).
  split; reflexivity.
Defined.

Example two_requests_in_a_row :
  effects (run_events sample_env ready_window [run_clicked; run_clicked])
  = [ load_processor (py "model_bnb4/a"); empty_cache;
      load_weights (py "model_bnb4/a"); empty_cache; thread_start 0;
      empty_cache; thread_quit 0; thread_wait 0; thread_start 1 ].
Proof. vm_compute. reflexivity. Qed.

End MainWindowFacts.
